(** * MediMart backend: the order workflow

    A shallow embedding of the order module of the pharmacy backend
    ([order.utils], [order.services]) and of the part of the document
    store it talks to, followed by the properties of the order
    life-cycle that the specification states.

    Conventions of the embedding.
    - A JavaScript [number] is modelled twice.  Where an amount is
      computed (the discounted price, the subtotal, the delivery
      charge, the grand total), the statements are made on the module
      [Binary64], in which a number is the IEEE-754 double of the code
      and every operation rounds as the code does.  Where numbers are
      only counted, compared and handed on (stock counts, guards,
      frames), they are rationals ([Q]), with [<] and [>] as the
      boolean tests [num_lt] and [num_gt]; rounding, NaN and the
      infinities are outside that part of the model.
    - JavaScript strings are [string]; an optional value
      ([T | undefined]) is an [option].
    - A collection addressed by [_id] is a [gmap] from the id to the
      document; [find] returns the matching documents in the order of
      [map_to_list].  The Payment collection, which the code only
      addresses by the non-key field [order_id], is a list in insertion
      order.  The [_id] of a new order is an id the collection does not
      hold yet.
    - The calls to the store and to the object storage return: a lost
      connection, a cast error on a malformed id or a schema validation
      error are outside the model.  The models carry no hooks: an
      update writes the fields of its update document and no other.
    - A function that throws returns in [Result]; a transaction runs a
      body on the store and keeps the store it started from when the
      body throws. *)

From Stdlib Require Import Ascii String QArith Qminmax Lqa.
From Stdlib Require PrimFloat FloatOps FloatAxioms SpecFloat.
From stdpp Require Import gmap strings list fin_maps.

Open Scope string_scope.
Open Scope Q_scope.

(** ** JavaScript numbers and truthiness *)

Definition num_lt (x y : Q) : bool := negb (Qle_bool y x).
Definition num_gt (x y : Q) : bool := num_lt y x.

(** [if (x)] on a number: every number but zero is truthy. *)
Definition num_truthy (x : Q) : bool := negb (Qeq_bool x 0).

(** [if (s)] on a string: every string but the empty one is truthy. *)
Definition str_truthy (s : string) : bool := negb (String.eqb s "").

(** [if (o)] on an optional string. *)
Definition opt_truthy (o : option string) : bool :=
  match o with
  | Some s => str_truthy s
  | None => false
  end.

(** ** order.utils *)

Module OrderUtils.

Definition is_digit (c : ascii) : bool :=
  let n := nat_of_ascii c in (48 <=? n)%nat && (n <=? 57)%nat.
Definition is_lower (c : ascii) : bool :=
  let n := nat_of_ascii c in (97 <=? n)%nat && (n <=? 122)%nat.
Definition is_upper (c : ascii) : bool :=
  let n := nat_of_ascii c in (65 <=? n)%nat && (n <=? 90)%nat.

(** [s.replace(/[^a-z0-9]/gi, '')] *)
Fixpoint strip_non_alphanumeric (s : string) : string :=
  match s with
  | EmptyString => EmptyString
  | String c rest =>
      if is_digit c || is_lower c || is_upper c
      then String c (strip_non_alphanumeric rest)
      else strip_non_alphanumeric rest
  end.

Definition upper_char (c : ascii) : ascii :=
  if is_lower c then ascii_of_nat (nat_of_ascii c - 32) else c.

(** [s.toUpperCase()], on the ASCII strings it is applied to here. *)
Fixpoint toUpperCase (s : string) : string :=
  match s with
  | EmptyString => EmptyString
  | String c rest => String (upper_char c) (toUpperCase rest)
  end.

(** [generateOrderId], as a function of the UUID it draws. *)
Definition generateOrderId (uuid : string) : string :=
  let alphanumeric := strip_non_alphanumeric uuid in
  toUpperCase (String.substring 0 6 alphanumeric).

(** [generateTransactionId], as a function of the UUID it draws. *)
Definition generateTransactionId (uuid : string) : string :=
  let alphanumeric := strip_non_alphanumeric uuid in
  "TRX-" ++ toUpperCase (String.substring 0 10 alphanumeric).

Definition calculateDiscountedPrice
    (price discount : Q) (discountType : string) : Q :=
  let finalPrice :=
    if num_truthy discount && str_truthy discountType then
      if String.eqb discountType "PERCENTAGE" then
        price - (price * discount) / 100
      else if String.eqb discountType "FLAT" then
        price - discount
      else price
    else price in
  if num_lt finalPrice 0 then 0 else finalPrice.

End OrderUtils.

(** ** Documents *)

(** The multipart file of the request; its [buffer] and [stream] carry
    no information the order workflow looks at and are left out. *)
Module FileInterface.
Record t := mk {
  fieldname : string;
  originalname : string;
  encoding : string;
  mimetype : string;
  size : Q;
  destination : string;
  filename : string;
  path : string
}.
End FileInterface.

(** The claims of the verified access token. *)
Module JwtPayload.
Record t := mk {
  _id : string;
  email : string;
  role : string
}.
End JwtPayload.

Module User.
Record t := mk {
  _id : string;
  email : string;
  status : string;
  is_deleted : bool
}.
End User.

(** A catalogue item; its [_id] is the key it is stored under. *)
Module Product.
Record t := mk {
  name : string;
  price : Q;
  dosage : option string;
  discount : Q;
  discount_type : string;
  stock : Q;
  in_stock : bool;
  requires_prescription : bool;
  is_deleted : bool
}.

(** The update document [{ stock: newStock, in_stock: flag }]. *)
Definition set_stock_and_flag (newStock : Q) (flag : bool) (p : t) : t :=
  mk (name p) (price p) (dosage p) (discount p) (discount_type p)
     newStock flag (requires_prescription p) (is_deleted p).

(** The update document [{ $inc: { stock: by } }]. *)
Definition inc_stock (by_ : Q) (p : t) : t :=
  mk (name p) (price p) (dosage p) (discount p) (discount_type p)
     (stock p + by_) (in_stock p) (requires_prescription p) (is_deleted p).
End Product.

(** One line of the request: [{ product_id, quantity }]. *)
Module OrderItem.
Record t := mk {
  product_id : string;
  quantity : Q
}.
End OrderItem.

(** One line of a stored order: the snapshot of the product taken when
    the order is created. *)
Module OrderItems.
Record t := mk {
  product_id : string;
  name : string;
  price : Q;
  dosage : option string;
  discount : Q;
  discount_type : string;
  quantity : Q;
  requires_prescription : bool
}.
End OrderItems.

(** The request body, its [products] JSON string already parsed. *)
Module Payload.
Record t := mk {
  products : list OrderItem.t;
  customer_name : string;
  customer_email : string;
  customer_phone : string;
  address : string;
  city : string;
  postal_code : string;
  notes : option string;
  payment_method : string
}.
End Payload.

(** An order document; its [_id] is the key it is stored under. *)
Module Order.
Record t := mk {
  order_id : string;
  customer_id : string;
  products : list OrderItems.t;
  customer_name : string;
  customer_email : string;
  customer_phone : string;
  address : string;
  city : string;
  postal_code : string;
  notes : option string;
  payment_method : string;
  prescription : option string;
  subtotal : Q;
  delivery_charge : Q;
  grand_total : Q;
  transaction_id : string;
  order_status : string;
  payment_status : string
}.

Definition set_payment_status (s : string) (o : t) : t :=
  mk (order_id o) (customer_id o) (products o) (customer_name o)
     (customer_email o) (customer_phone o) (address o) (city o)
     (postal_code o) (notes o) (payment_method o) (prescription o)
     (subtotal o) (delivery_charge o) (grand_total o) (transaction_id o)
     (order_status o) s.

Definition set_order_status (s : string) (o : t) : t :=
  mk (order_id o) (customer_id o) (products o) (customer_name o)
     (customer_email o) (customer_phone o) (address o) (city o)
     (postal_code o) (notes o) (payment_method o) (prescription o)
     (subtotal o) (delivery_charge o) (grand_total o) (transaction_id o)
     s (payment_status o).
End Order.

(** A payment document; [order_id] holds the [_id] of its order. *)
Module Payment.
Record t := mk {
  order_id : string;
  amount : Q;
  transaction_id : string;
  payment_status : string;
  payment_gateway_data : option string
}.

(** The update document
    [{ payment_status: s, payment_gateway_data: null }]. *)
Definition set_status_clear_gateway (s : string) (p : t) : t :=
  mk (order_id p) (amount p) (transaction_id p) s None.
End Payment.

(** ** The document store *)

Record Store := mkStore {
  users : list User.t;
  products : gmap string Product.t;
  orders : gmap string Order.t;
  payments : list Payment.t
}.

Definition with_products (ps : gmap string Product.t) (σ : Store) : Store :=
  mkStore (users σ) ps (orders σ) (payments σ).
Definition with_orders (os : gmap string Order.t) (σ : Store) : Store :=
  mkStore (users σ) (products σ) os (payments σ).
Definition with_payments (ps : list Payment.t) (σ : Store) : Store :=
  mkStore (users σ) (products σ) (orders σ) ps.

(** [User.findOne({ email, status: 'ACTIVE', is_deleted: false })] *)
Definition User_findOne (email : string) (σ : Store) : option User.t :=
  List.find
    (λ u, String.eqb (User.email u) email
          && String.eqb (User.status u) "ACTIVE"
          && negb (User.is_deleted u))
    (users σ).

(** [Product.find({ _id: { $in: ids }, is_deleted: false })]: every
    stored product is returned at most once, whatever the number of
    times its id occurs in [ids]. *)
Definition Product_find (ids : list string) (σ : Store)
    : list (string * Product.t) :=
  filter (λ kp, kp.1 ∈ ids ∧ Product.is_deleted kp.2 = false)
         (map_to_list (products σ)).

(** [Product.updateOne({ _id: id }, update)]: no document, no change. *)
Definition Product_updateOne
    (id : string) (update : Product.t → Product.t) (σ : Store) : Store :=
  with_products (alter update id (products σ)) σ.

(** [Order.create([doc])]: the document is stored under a new [_id]. *)
Definition Order_create (doc : Order.t) (σ : Store) : string * Store :=
  let oid := fresh (dom (orders σ)) in
  (oid, with_orders (<[oid := doc]> (orders σ)) σ).

Definition Order_findById (id : string) (σ : Store) : option Order.t :=
  orders σ !! id.

(** [order.save()] of a document loaded from the store. *)
Definition Order_save (id : string) (doc : Order.t) (σ : Store) : Store :=
  with_orders (<[id := doc]> (orders σ)) σ.

Definition Payment_create (doc : Payment.t) (σ : Store) : Store :=
  with_payments (payments σ ++ [doc]) σ.

(** Apply [f] to the first element that satisfies [P]. *)
Fixpoint update_first {A : Type} (P : A → bool) (f : A → A) (l : list A)
    : list A :=
  match l with
  | [] => []
  | x :: rest => if P x then f x :: rest else x :: update_first P f rest
  end.

(** [Payment.updateOne({ order_id: oid }, update)] *)
Definition Payment_updateOne
    (oid : string) (update : Payment.t → Payment.t) (σ : Store) : Store :=
  with_payments
    (update_first (λ p, String.eqb (Payment.order_id p) oid) update
                  (payments σ)) σ.

(** ** Errors and transactions *)

Inductive httpStatus := UNAUTHORIZED | BAD_REQUEST | NOT_FOUND.

Record AppError := mkAppError {
  statusCode : httpStatus;
  message : string
}.

Definition Result (A : Type) : Type := (AppError + A)%type.

Definition throw {A : Type} (code : httpStatus) (msg : string) : Result A :=
  inl (mkAppError code msg).

#[global] Instance Result_ret : MRet Result := λ A x, inr x.
#[global] Instance Result_bind : MBind Result :=
  λ A B f m, match m with inl e => inl e | inr a => f a end.

(** [startTransaction] ... [commitTransaction] / [abortTransaction]:
    the writes of [body] are kept when it returns and dropped when it
    throws; the error is rethrown unchanged. *)
Definition transaction {A : Type}
    (body : Store → Result (Store * A)) (σ : Store) : Store * Result A :=
  match body σ with
  | inl e => (σ, inl e)
  | inr (σ', a) => (σ', inr a)
  end.

(** ** order.constant *)

Module OrderConstants.
(** Modelled from the spec: the list of order states of
    [order.constant], which is not among the sources at hand; the
    states are the five keys of [invalidTransitions] below. *)
Definition OrderStatus : list string :=
  ["PLACED"; "CONFIRMED"; "SHIPPED"; "DELIVERED"; "CANCELLED"].
End OrderConstants.

(** ** order.services *)

(** [arr.includes(x)] on an array of strings. *)
Definition includes (arr : list string) (x : string) : bool :=
  existsb (String.eqb x) arr.

(** [obj[key]] on an object literal with string keys. *)
Fixpoint property {A : Type} (obj : list (string * A)) (key : string)
    : option A :=
  match obj with
  | [] => None
  | (k, v) :: rest => if String.eqb k key then Some v else property rest key
  end.

(** The two UUIDs one call of [CreateOrder] draws. *)
Record Uuids := mkUuids {
  order_uuid : string;
  transaction_uuid : string
}.

(** The values the schemas of [order.model] and [payment.model] give
    to the status fields a new document does not set; a new payment
    holds no gateway data. *)
Record SchemaDefaults := mkSchemaDefaults {
  default_order_status : string;
  default_order_payment_status : string;
  default_payment_payment_status : string
}.

Record StockUpdate := mkStockUpdate {
  productId : string;
  newStock : Q
}.

Section order_services.

(** The upload to the object storage, as the function from the file,
    the [public_id] and the [folder] to the [secure_url] it answers. *)
Variable uploadToCloudinary : FileInterface.t → string → string → string.
Variable schema : SchemaDefaults.

(** The callback of [requestedProducts.map], run over the products in
    order: it throws on the first product that has no line or too
    little stock, and otherwise grows [subtotal] and [stockUpdates] and
    yields the snapshot line. *)
Fixpoint mapRequestedProducts
    (orderItems : list OrderItem.t)
    (requestedProducts : list (string * Product.t))
    (subtotal : Q) (stockUpdates : list StockUpdate)
    : Result (Q * list StockUpdate * list OrderItems.t) :=
  match requestedProducts with
  | [] => mret (subtotal, stockUpdates, [])
  | (pid, product) :: rest =>
      match List.find (λ item, String.eqb (OrderItem.product_id item) pid)
                      orderItems with
      | None => throw BAD_REQUEST "Product out of stock"
      | Some orderItem =>
          if num_lt (Product.stock product) (OrderItem.quantity orderItem)
          then throw BAD_REQUEST "Product out of stock"
          else
            let finalPrice :=
              OrderUtils.calculateDiscountedPrice
                (Product.price product) (Product.discount product)
                (Product.discount_type product) in
            let subtotal :=
              subtotal + finalPrice * OrderItem.quantity orderItem in
            let stockUpdates :=
              (stockUpdates ++
               [mkStockUpdate pid
                  (Product.stock product - OrderItem.quantity orderItem)])%list
            in
            '(subtotal, stockUpdates, orderProducts) ←
              mapRequestedProducts orderItems rest subtotal stockUpdates;
            mret (subtotal, stockUpdates,
                  OrderItems.mk pid (Product.name product)
                    (Product.price product) (Product.dosage product)
                    (Product.discount product)
                    (Product.discount_type product)
                    (OrderItem.quantity orderItem)
                    (Product.requires_prescription product)
                  :: orderProducts)
      end
  end.

(** [Promise.all(stockUpdates.map(... Product.updateOne ...))] *)
Definition applyStockUpdates (stockUpdates : list StockUpdate) (σ : Store)
    : Store :=
  foldl
    (λ s u,
       Product_updateOne (productId u)
         (Product.set_stock_and_flag (newStock u) (num_gt (newStock u) 0)) s)
    σ stockUpdates.

(** The [try] block of [CreateOrder]; it yields the [_id] of the new
    order with the document. *)
Definition CreateOrder_body
    (uuids : Uuids) (payload : Payload.t) (file : option FileInterface.t)
    (user : JwtPayload.t) (σ : Store)
    : Result (Store * (string * Order.t)) :=
  let orderItems := Payload.products payload in
  match User_findOne (JwtPayload.email user) σ with
  | None => throw UNAUTHORIZED "User not found"
  | Some requestedUser =>
      let productIds := map OrderItem.product_id orderItems in
      let requestedProducts := Product_find productIds σ in
      if negb (length requestedProducts =? length productIds)%nat
      then throw BAD_REQUEST "Product not found"
      else
        let order_id := OrderUtils.generateOrderId (order_uuid uuids) in
        let isPrescriptionRequired :=
          existsb (λ kp, Product.requires_prescription kp.2)
                  requestedProducts in
        prescription ←
          (if isPrescriptionRequired then
             match file with
             | None => throw BAD_REQUEST "Prescription required"
             | Some f =>
                 mret (Some (uploadToCloudinary f order_id
                               "medimart/prescriptions"))
             end
           else mret None);
        '(subtotal, stockUpdates, orderProducts) ←
          mapRequestedProducts orderItems requestedProducts 0 [];
        let delivery_charge := if num_gt subtotal 1000 then 0 else 50 in
        let grand_total := subtotal + delivery_charge in
        let transaction_id :=
          OrderUtils.generateTransactionId (transaction_uuid uuids) in
        let doc :=
          Order.mk order_id (User._id requestedUser) orderProducts
            (Payload.customer_name payload) (Payload.customer_email payload)
            (Payload.customer_phone payload) (Payload.address payload)
            (Payload.city payload) (Payload.postal_code payload)
            (Payload.notes payload) (Payload.payment_method payload)
            prescription subtotal delivery_charge grand_total transaction_id
            (default_order_status schema)
            (default_order_payment_status schema) in
        let '(oid, σ1) := Order_create doc σ in
        let σ2 := applyStockUpdates stockUpdates σ1 in
        let σ3 :=
          Payment_create
            (Payment.mk oid grand_total transaction_id
               (default_payment_payment_status schema) None) σ2 in
        mret (σ3, (oid, doc))
  end.

Definition CreateOrder
    (uuids : Uuids) (payload : Payload.t) (file : option FileInterface.t)
    (user : JwtPayload.t) (σ : Store) : Store * Result (string * Order.t) :=
  transaction (CreateOrder_body uuids payload file user) σ.

End order_services.

(** The table of [UpdateOrderStatus]: under each current state, the
    targets that are refused from it. *)
Definition invalidTransitions : list (string * list string) :=
  [ ("PLACED", []);
    ("CONFIRMED", []);
    ("SHIPPED", ["PLACED"; "CONFIRMED"]);
    ("DELIVERED", ["PLACED"; "CONFIRMED"; "SHIPPED"; "CANCELLED"]);
    ("CANCELLED", ["DELIVERED"; "SHIPPED"]) ].

(** [invalidTransitions[currentStatus]?.includes(status)] *)
Definition isInvalidTransition (currentStatus status : string) : bool :=
  match property invalidTransitions currentStatus with
  | Some targets => includes targets status
  | None => false
  end.

Definition dquote : string := String "034"%char EmptyString.

Definition invalidStatusChange (currentStatus status : string) : string :=
  "Invalid status change " ++ dquote ++ currentStatus ++ dquote
  ++ " → " ++ dquote ++ status ++ dquote.

(** The restocking of a cancelled, paid order:
    [Promise.all(order.products.map(... $inc ...))]. *)
Definition restock (lines : list OrderItems.t) (σ : Store) : Store :=
  foldl
    (λ s line,
       Product_updateOne (OrderItems.product_id line)
         (Product.inc_stock (OrderItems.quantity line)) s)
    σ lines.

(** The [switch (status)] of [UpdateOrderStatus], on the order loaded
    under [id]: the guards and the side effects of each target. *)
Definition switchStatus
    (id status : string) (order : Order.t) (σ : Store)
    : Result (Store * Order.t) :=
  if String.eqb status "CONFIRMED" then
    if existsb OrderItems.requires_prescription (Order.products order)
       && negb (opt_truthy (Order.prescription order))
    then throw BAD_REQUEST "Cannot confirm order without prescription"
    else mret (σ, order)
  else if String.eqb status "SHIPPED" then
    if negb (String.eqb (Order.payment_method order) "cash_on_delivery")
       && negb (String.eqb (Order.payment_status order) "PAID")
    then throw BAD_REQUEST "Cannot ship an order with incomplete payment"
    else mret (σ, order)
  else if String.eqb status "DELIVERED" then
    if String.eqb (Order.payment_method order) "cash_on_delivery"
    then mret (σ, Order.set_payment_status "PAID" order)
    else mret (σ, order)
  else if String.eqb status "CANCELLED" then
    if String.eqb (Order.payment_status order) "PAID" then
      let order := Order.set_payment_status "CANCELLED" order in
      let σ1 :=
        Payment_updateOne id (Payment.set_status_clear_gateway "CANCELLED") σ in
      let σ2 := restock (Order.products order) σ1 in
      mret (σ2, order)
    else mret (σ, order)
  else mret (σ, order).

(** The [try] block of [UpdateOrderStatus]. *)
Definition UpdateOrderStatus_body (id status : string) (σ : Store)
    : Result (Store * Order.t) :=
  match Order_findById id σ with
  | None => throw NOT_FOUND "Order not found"
  | Some order =>
      if negb (includes OrderConstants.OrderStatus status)
      then throw BAD_REQUEST "Invalid order status"
      else
        let currentStatus := Order.order_status order in
        if isInvalidTransition currentStatus status
        then throw BAD_REQUEST (invalidStatusChange currentStatus status)
        else
          '(σ1, order) ← switchStatus id status order σ;
          let order := Order.set_order_status status order in
          let σ2 := Order_save id order σ1 in
          mret (σ2, order)
  end.

Definition UpdateOrderStatus (id status : string) (σ : Store)
    : Store * Result Order.t :=
  transaction (UpdateOrderStatus_body id status) σ.

(** ** Restocking, per product *)



(** ** The snapshot of a product *)

(** The snapshot line the loop yields for a product and its line. *)
Definition snapshot (pid : string) (p : Product.t) (item : OrderItem.t)
    : OrderItems.t :=
  OrderItems.mk pid (Product.name p) (Product.price p) (Product.dosage p)
    (Product.discount p) (Product.discount_type p) (OrderItem.quantity item)
    (Product.requires_prescription p).

(** ** The subtotal of the stored lines *)

(** What one line adds to the subtotal: the discounted price of its
    snapshot, times its quantity. *)
Definition lineTotal (line : OrderItems.t) : Q :=
  OrderUtils.calculateDiscountedPrice
    (OrderItems.price line) (OrderItems.discount line)
    (OrderItems.discount_type line)
  * OrderItems.quantity line.

Definition linesSubtotal (lines : list OrderItems.t) : Q :=
  foldl (λ acc line, acc + lineTotal line) 0 lines.

(** ** Reading a result and the stock flag *)

(** The value of a call that returned. *)
Definition returned {A : Type} (r : Result A) : option A :=
  match r with
  | inr a => Some a
  | inl _ => None
  end.

(** The invariant of the catalogue on one product:
    [in_stock == (stock > 0)]. *)
Definition in_stock_consistent (p : Product.t) : bool :=
  Bool.eqb (Product.in_stock p) (num_gt (Product.stock p) 0).

Definition catalogue_consistent (σ : Store) : bool :=
  forallb (λ kp, in_stock_consistent kp.2) (map_to_list (products σ)).

(** ** Sample data

    A small shop, used to run the workflow on concrete requests. *)

Module Sample.

Definition alice : User.t := User.mk "u1" "alice@example.com" "ACTIVE" false.
Definition alice_token : JwtPayload.t :=
  JwtPayload.mk "u1" "alice@example.com" "CUSTOMER".
(** A token whose account is not in the store. *)
Definition mallory_token : JwtPayload.t :=
  JwtPayload.mk "u9" "mallory@example.com" "CUSTOMER".

Definition napa : Product.t :=
  Product.mk "Napa" 1200 None 0 "PERCENTAGE" 5 true false false.
Definition seclo : Product.t :=
  Product.mk "Seclo" 500 (Some "20mg") 0 "FLAT" 2 true false false.
Definition amoxicillin : Product.t :=
  Product.mk "Amoxicillin" 500 (Some "250mg") 10 "PERCENTAGE" 2 true true
             false.

Definition shop : Store :=
  mkStore [alice]
          (<["p1" := napa]> (<["p2" := seclo]> (<["p3" := amoxicillin]> ∅)))
          ∅ [].

Definition upload (f : FileInterface.t) (public_id folder : string) : string :=
  "https://cdn.example/" ++ folder ++ "/" ++ public_id.
Definition schema : SchemaDefaults :=
  mkSchemaDefaults "PLACED" "PENDING" "PENDING".
Definition uuids : Uuids :=
  mkUuids "3f2a9c1e-7b4d-4e8a-9c2f-1a2b3c4d5e6f"
          "aa11bb22-cc33-4d44-8e55-ff6677889900".
Definition request (lines : list OrderItem.t) (method : string) : Payload.t :=
  Payload.mk lines "Alice" "alice@example.com" "01700000000" "12 Lake Road"
             "Dhaka" "1207" None method.
Definition scan : FileInterface.t :=
  FileInterface.mk "prescription" "rx.png" "7bit" "image/png" 2048 ""
                   "rx.png" "/tmp/rx.png".

(** An order of two units of Seclo, as [CreateOrder] stores it, and the
    shop once it is placed: Seclo is sold out. *)
Definition seclo_line : OrderItems.t :=
  OrderItems.mk "p2" "Seclo" 500 (Some "20mg") 0 "FLAT" 2 false.
Definition seclo_order (method order_status payment_status : string)
    : Order.t :=
  Order.mk "3F2A9C" "u1" [seclo_line] "Alice" "alice@example.com"
           "01700000000" "12 Lake Road" "Dhaka" "1207" None method None
           1000 50 1050 "TRX-AA11BB22CC" order_status payment_status.
Definition seclo_payment (payment_status : string) : Payment.t :=
  Payment.mk "0" 1050 "TRX-AA11BB22CC" payment_status None.
Definition shop_with (o : Order.t) (pay : Payment.t) : Store :=
  mkStore [alice]
          (<["p1" := napa]>
             (<["p2" := Product.set_stock_and_flag 0 false seclo]>
                (<["p3" := amoxicillin]> ∅)))
          (<["0" := o]> ∅) [pay].

End Sample.

(** ** product.utils *)

Module ProductUtils.


End ProductUtils.

(** ** Reading one order *)

(** [Order.findOne(filter)]: the first stored order the filter keeps,
    with its [_id]. *)
Definition Order_findOne (filter : Order.t → bool) (σ : Store)
    : option (string * Order.t) :=
  List.find (λ kp, filter kp.2) (map_to_list (orders σ)).

Definition GetMyOrderById (id : string) (user : JwtPayload.t) (σ : Store)
    : Result (string * Order.t) :=
  match
    Order_findOne
      (λ o, String.eqb (Order.order_id o) id
            && String.eqb (Order.customer_id o) (JwtPayload._id user)) σ
  with
  | None => throw NOT_FOUND "Order not found"
  | Some order => mret order
  end.

(** ** Shapes of strings *)

(** Every character of [s] passes [P]. *)
Fixpoint string_forallb (P : ascii → bool) (s : string) : bool :=
  match s with
  | EmptyString => true
  | String c rest => P c && string_forallb P rest
  end.

Definition alphanumeric (c : ascii) : bool :=
  OrderUtils.is_digit c || OrderUtils.is_lower c || OrderUtils.is_upper c.


(** ** The order module over IEEE-754 doubles

    The same documents and the same [CreateOrder], with every
    JavaScript [number] as the binary64 value it is: [+], [-], [*] and
    [/] round to nearest, ties to even, [<] is the IEEE comparison, and
    NaN, the infinities and the signed zeros are there.  What the code
    computes and stores as an amount is read off this module; the
    module above leaves rounding out and is used where no amount is
    compared or computed. *)

Module Binary64.
Import PrimFloat.
Local Open Scope float_scope.

Definition num_lt (x y : float) : bool := x <? y.
Definition num_gt (x y : float) : bool := num_lt y x.

(** [if (x)] on a number: zero, of either sign, and NaN are falsy. *)
Definition num_truthy (x : float) : bool := negb ((x =? 0) || is_nan x).

Definition calculateDiscountedPrice
    (price discount : float) (discountType : string) : float :=
  let finalPrice :=
    if num_truthy discount && str_truthy discountType then
      if String.eqb discountType "PERCENTAGE" then
        price - (price * discount) / 100
      else if String.eqb discountType "FLAT" then
        price - discount
      else price
    else price in
  if num_lt finalPrice 0 then 0 else finalPrice.

(** A catalogue item; its [_id] is the key it is stored under. *)
Module Product.
Record t := mk {
  name : string;
  price : float;
  dosage : option string;
  discount : float;
  discount_type : string;
  stock : float;
  in_stock : bool;
  requires_prescription : bool;
  is_deleted : bool
}.

(** The update document [{ stock: newStock, in_stock: flag }]. *)
Definition set_stock_and_flag (newStock : float) (flag : bool) (p : t) : t :=
  mk (name p) (price p) (dosage p) (discount p) (discount_type p)
     newStock flag (requires_prescription p) (is_deleted p).

End Product.

(** One line of the request: [{ product_id, quantity }]. *)
Module OrderItem.
Record t := mk {
  product_id : string;
  quantity : float
}.
End OrderItem.

(** One line of a stored order: the snapshot of the product taken when
    the order is created. *)
Module OrderItems.
Record t := mk {
  product_id : string;
  name : string;
  price : float;
  dosage : option string;
  discount : float;
  discount_type : string;
  quantity : float;
  requires_prescription : bool
}.
End OrderItems.

(** The request body, its [products] JSON string already parsed. *)
Module Payload.
Record t := mk {
  products : list OrderItem.t;
  customer_name : string;
  customer_email : string;
  customer_phone : string;
  address : string;
  city : string;
  postal_code : string;
  notes : option string;
  payment_method : string
}.
End Payload.

(** An order document; its [_id] is the key it is stored under. *)
Module Order.
Record t := mk {
  order_id : string;
  customer_id : string;
  products : list OrderItems.t;
  customer_name : string;
  customer_email : string;
  customer_phone : string;
  address : string;
  city : string;
  postal_code : string;
  notes : option string;
  payment_method : string;
  prescription : option string;
  subtotal : float;
  delivery_charge : float;
  grand_total : float;
  transaction_id : string;
  order_status : string;
  payment_status : string
}.

End Order.

(** A payment document; [order_id] holds the [_id] of its order. *)
Module Payment.
Record t := mk {
  order_id : string;
  amount : float;
  transaction_id : string;
  payment_status : string;
  payment_gateway_data : option string
}.

End Payment.

Record Store := mkStore {
  users : list User.t;
  products : gmap string Product.t;
  orders : gmap string Order.t;
  payments : list Payment.t
}.

Definition with_products (ps : gmap string Product.t) (σ : Store) : Store :=
  mkStore (users σ) ps (orders σ) (payments σ).
Definition with_orders (os : gmap string Order.t) (σ : Store) : Store :=
  mkStore (users σ) (products σ) os (payments σ).
Definition with_payments (ps : list Payment.t) (σ : Store) : Store :=
  mkStore (users σ) (products σ) (orders σ) ps.

(** [User.findOne({ email, status: 'ACTIVE', is_deleted: false })] *)
Definition User_findOne (email : string) (σ : Store) : option User.t :=
  List.find
    (λ u, String.eqb (User.email u) email
          && String.eqb (User.status u) "ACTIVE"
          && negb (User.is_deleted u))
    (users σ).

(** [Product.find({ _id: { $in: ids }, is_deleted: false })]: every
    stored product is returned at most once, whatever the number of
    times its id occurs in [ids]. *)
Definition Product_find (ids : list string) (σ : Store)
    : list (string * Product.t) :=
  filter (λ kp, kp.1 ∈ ids ∧ Product.is_deleted kp.2 = false)
         (map_to_list (products σ)).

(** [Product.updateOne({ _id: id }, update)]: no document, no change. *)
Definition Product_updateOne
    (id : string) (update : Product.t → Product.t) (σ : Store) : Store :=
  with_products (alter update id (products σ)) σ.

(** [Order.create([doc])]: the document is stored under a new [_id]. *)
Definition Order_create (doc : Order.t) (σ : Store) : string * Store :=
  let oid := fresh (dom (orders σ)) in
  (oid, with_orders (<[oid := doc]> (orders σ)) σ).

Definition Payment_create (doc : Payment.t) (σ : Store) : Store :=
  with_payments (payments σ ++ [doc]) σ.

(** [startTransaction] ... [commitTransaction] / [abortTransaction]:
    the writes of [body] are kept when it returns and dropped when it
    throws; the error is rethrown unchanged. *)
Definition transaction {A : Type}
    (body : Store → Result (Store * A)) (σ : Store) : Store * Result A :=
  match body σ with
  | inl e => (σ, inl e)
  | inr (σ', a) => (σ', inr a)
  end.

Record StockUpdate := mkStockUpdate {
  productId : string;
  newStock : float
}.

Section order_services.

(** The upload to the object storage, as the function from the file,
    the [public_id] and the [folder] to the [secure_url] it answers. *)
Variable uploadToCloudinary : FileInterface.t → string → string → string.
Variable schema : SchemaDefaults.

(** The callback of [requestedProducts.map], run over the products in
    order: it throws on the first product that has no line or too
    little stock, and otherwise grows [subtotal] and [stockUpdates] and
    yields the snapshot line. *)
Fixpoint mapRequestedProducts
    (orderItems : list OrderItem.t)
    (requestedProducts : list (string * Product.t))
    (subtotal : float) (stockUpdates : list StockUpdate)
    : Result (float * list StockUpdate * list OrderItems.t) :=
  match requestedProducts with
  | [] => mret (subtotal, stockUpdates, [])
  | (pid, product) :: rest =>
      match List.find (λ item, String.eqb (OrderItem.product_id item) pid)
                      orderItems with
      | None => throw BAD_REQUEST "Product out of stock"
      | Some orderItem =>
          if num_lt (Product.stock product) (OrderItem.quantity orderItem)
          then throw BAD_REQUEST "Product out of stock"
          else
            let finalPrice :=
              calculateDiscountedPrice
                (Product.price product) (Product.discount product)
                (Product.discount_type product) in
            let subtotal :=
              subtotal + finalPrice * OrderItem.quantity orderItem in
            let stockUpdates :=
              (stockUpdates ++
               [mkStockUpdate pid
                  (Product.stock product - OrderItem.quantity orderItem)])%list
            in
            '(subtotal, stockUpdates, orderProducts) ←
              mapRequestedProducts orderItems rest subtotal stockUpdates;
            mret (subtotal, stockUpdates,
                  OrderItems.mk pid (Product.name product)
                    (Product.price product) (Product.dosage product)
                    (Product.discount product)
                    (Product.discount_type product)
                    (OrderItem.quantity orderItem)
                    (Product.requires_prescription product)
                  :: orderProducts)
      end
  end.

(** [Promise.all(stockUpdates.map(... Product.updateOne ...))] *)
Definition applyStockUpdates (stockUpdates : list StockUpdate) (σ : Store)
    : Store :=
  foldl
    (λ s u,
       Product_updateOne (productId u)
         (Product.set_stock_and_flag (newStock u) (num_gt (newStock u) 0)) s)
    σ stockUpdates.

(** The [try] block of [CreateOrder]; it yields the [_id] of the new
    order with the document. *)
Definition CreateOrder_body
    (uuids : Uuids) (payload : Payload.t) (file : option FileInterface.t)
    (user : JwtPayload.t) (σ : Store)
    : Result (Store * (string * Order.t)) :=
  let orderItems := Payload.products payload in
  match User_findOne (JwtPayload.email user) σ with
  | None => throw UNAUTHORIZED "User not found"
  | Some requestedUser =>
      let productIds := map OrderItem.product_id orderItems in
      let requestedProducts := Product_find productIds σ in
      if negb (length requestedProducts =? length productIds)%nat
      then throw BAD_REQUEST "Product not found"
      else
        let order_id := OrderUtils.generateOrderId (order_uuid uuids) in
        let isPrescriptionRequired :=
          existsb (λ kp, Product.requires_prescription kp.2)
                  requestedProducts in
        prescription ←
          (if isPrescriptionRequired then
             match file with
             | None => throw BAD_REQUEST "Prescription required"
             | Some f =>
                 mret (Some (uploadToCloudinary f order_id
                               "medimart/prescriptions"))
             end
           else mret None);
        '(subtotal, stockUpdates, orderProducts) ←
          mapRequestedProducts orderItems requestedProducts 0 [];
        let delivery_charge := if num_gt subtotal 1000 then 0 else 50 in
        let grand_total := subtotal + delivery_charge in
        let transaction_id :=
          OrderUtils.generateTransactionId (transaction_uuid uuids) in
        let doc :=
          Order.mk order_id (User._id requestedUser) orderProducts
            (Payload.customer_name payload) (Payload.customer_email payload)
            (Payload.customer_phone payload) (Payload.address payload)
            (Payload.city payload) (Payload.postal_code payload)
            (Payload.notes payload) (Payload.payment_method payload)
            prescription subtotal delivery_charge grand_total transaction_id
            (default_order_status schema)
            (default_order_payment_status schema) in
        let '(oid, σ1) := Order_create doc σ in
        let σ2 := applyStockUpdates stockUpdates σ1 in
        let σ3 :=
          Payment_create
            (Payment.mk oid grand_total transaction_id
               (default_payment_payment_status schema) None) σ2 in
        mret (σ3, (oid, doc))
  end.

Definition CreateOrder
    (uuids : Uuids) (payload : Payload.t) (file : option FileInterface.t)
    (user : JwtPayload.t) (σ : Store) : Store * Result (string * Order.t) :=
  transaction (CreateOrder_body uuids payload file user) σ.

End order_services.

(** What one line adds to the subtotal: the discounted price of its
    snapshot, times its quantity. *)
Definition lineTotal (line : OrderItems.t) : float :=
  calculateDiscountedPrice
    (OrderItems.price line) (OrderItems.discount line)
    (OrderItems.discount_type line)
  * OrderItems.quantity line.

Definition linesSubtotal (lines : list OrderItems.t) : float :=
  foldl (λ acc line, acc + lineTotal line) 0 lines.

(** A shop with round and with awkward prices. *)
Module Shop.

Definition tonic : Product.t :=
  Product.mk "Tonic" 2 None 20 "PERCENTAGE" 10 true false false.
Definition syrup : Product.t :=
  Product.mk "Syrup" 416 None 20 "PERCENTAGE" 10 true false false.
Definition napa : Product.t :=
  Product.mk "Napa" 1200 None 0 "PERCENTAGE" 5 true false false.
Definition seclo : Product.t :=
  Product.mk "Seclo" 500 (Some "20mg") 0 "FLAT" 2 true false false.
(** Priced 99.99: the double next to it is written out. *)
Definition drops : Product.t :=
  Product.mk "Drops" 0x1.8ff5c28f5c28fp+6 None 0 "FLAT" 4 true false false.

Definition shop : Store :=
  mkStore [Sample.alice]
          (<["pa" := tonic]>
             (<["pb" := syrup]>
                (<["p1" := napa]> (<["p2" := seclo]> (<["p5" := drops]> ∅)))))
          ∅ [].

Definition request (lines : list OrderItem.t) : Payload.t :=
  Payload.mk lines "Alice" "alice@example.com" "01700000000" "12 Lake Road"
             "Dhaka" "1207" None "cash_on_delivery".

(** The subtotal, the delivery charge and the grand total of the order
    a request creates in the shop. *)
Definition totals (lines : list OrderItem.t)
    : option (float * float * float) :=
  (λ r, (Order.subtotal r.2, Order.delivery_charge r.2,
         Order.grand_total r.2))
    <$> returned
          (CreateOrder Sample.upload Sample.schema Sample.uuids
             (request lines) None Sample.alice_token shop).2.

End Shop.

End Binary64.

(** ** Scenes on the sample shop *)

Module Scenario.

(** The request for the two units of Seclo, and the shop once it is
    placed. *)
Definition seclo_request : Payload.t :=
  Sample.request [OrderItem.mk "p2" 2] "cash_on_delivery".
Definition placed_order : Order.t :=
  Sample.seclo_order "cash_on_delivery" "PLACED" "PENDING".
Definition placed_shop : Store :=
  Sample.shop_with placed_order (Sample.seclo_payment "PENDING").

(** The same order paid online, and delivered. *)
Definition paid_order : Order.t := Sample.seclo_order "online" "PLACED" "PAID".
Definition paid_shop : Store :=
  Sample.shop_with paid_order (Sample.seclo_payment "PAID").
Definition delivered_order : Order.t :=
  Sample.seclo_order "cash_on_delivery" "DELIVERED" "PAID".
Definition delivered_shop : Store :=
  Sample.shop_with delivered_order (Sample.seclo_payment "PENDING").

End Scenario.

(** ** Facts on the number tests *)

Lemma num_lt_true (x y : Q) : num_lt x y = true <-> x < y.
Proof.
  unfold num_lt. rewrite negb_true_iff.
  split.
  - intros H. apply Qnot_le_lt. intros Hle.
    apply Qle_bool_iff in Hle. congruence.
  - intros H. destruct (Qle_bool y x) eqn:E; [|done].
    apply Qle_bool_iff in E. exfalso. by apply (Qlt_not_le x y).
Qed.

Lemma num_lt_false (x y : Q) : num_lt x y = false <-> y <= x.
Proof.
  unfold num_lt. rewrite negb_false_iff. apply Qle_bool_iff.
Qed.

Lemma num_truthy_false (x : Q) : num_truthy x = false <-> x == 0.
Proof.
  unfold num_truthy. rewrite negb_false_iff. apply Qeq_bool_iff.
Qed.

(** ** Discounted price *)

Section discounted_price.
Import OrderUtils.

(** The value is one of its own clamps: never below zero. *)
Lemma calculateDiscountedPrice_nonneg (price discount : Q) (ty : string) :
  0 <= calculateDiscountedPrice price discount ty.
Proof.
  unfold calculateDiscountedPrice.
  match goal with |- context [num_lt ?e 0] => destruct (num_lt e 0) eqn:E end.
  - apply Qle_refl.
  - by apply num_lt_false.
Qed.

End discounted_price.


(** ** Transactions *)

Lemma transaction_inr {A : Type} (body : Store → Result (Store * A))
    (σ σ' : Store) (a : A) :
  transaction body σ = (σ', inr a) <-> body σ = inr (σ', a).
Proof.
  unfold transaction. destruct (body σ) as [e|[σ1 a1]]; split; intros H;
    inversion H; subst; reflexivity.
Qed.

Lemma transaction_inl {A : Type} (body : Store → Result (Store * A))
    (σ : Store) (e : AppError) :
  body σ = inl e → transaction body σ = (σ, inl e).
Proof. unfold transaction. by intros ->. Qed.

(** A transaction that fails leaves the store as it found it. *)
Lemma transaction_abort {A : Type} (body : Store → Result (Store * A))
    (σ σ' : Store) (e : AppError) :
  transaction body σ = (σ', inl e) → σ' = σ.
Proof.
  unfold transaction. destruct (body σ) as [e1|[σ1 a1]]; intros H;
    inversion H; subst; reflexivity.
Qed.

(** ** The store primitives *)


Lemma update_first_length {A : Type} (P : A → bool) (f : A → A) (l : list A) :
  length (update_first P f l) = length l.
Proof.
  induction l as [|x l IH]; simpl; [done|].
  destruct (P x); simpl; by rewrite ?IH.
Qed.

Lemma update_first_none {A : Type} (P : A → bool) (f : A → A) (l : list A) :
  List.find P l = None → update_first P f l = l.
Proof.
  induction l as [|x l IH]; simpl; [done|].
  destruct (P x); [done|]. intros H. by rewrite IH.
Qed.

Lemma restock_users lines σ : users (restock lines σ) = users σ.
Proof. revert σ. induction lines as [|l ls IH]; intros σ; simpl; [done|]. by rewrite IH. Qed.

Lemma restock_orders lines σ : orders (restock lines σ) = orders σ.
Proof. revert σ. induction lines as [|l ls IH]; intros σ; simpl; [done|]. by rewrite IH. Qed.

Lemma restock_payments lines σ : payments (restock lines σ) = payments σ.
Proof. revert σ. induction lines as [|l ls IH]; intros σ; simpl; [done|]. by rewrite IH. Qed.






(** ** The transition table *)

(** Case analysis on the state [s] against the keys it is compared to. *)
Ltac case_status s :=
  repeat match goal with
    | |- context [String.eqb ?a s] =>
        destruct (String.eqb_spec a s) as [<-|?];
        [try (vm_compute; done)|]
    end.

(** From which states each target is refused. *)
Lemma isInvalidTransition_CANCELLED (currentStatus : string) :
  isInvalidTransition currentStatus "CANCELLED" = true
  <-> currentStatus = "DELIVERED".
Proof.
  split; [|by intros ->].
  unfold isInvalidTransition, invalidTransitions. cbn [property].
  case_status currentStatus. done.
Qed.

Lemma isInvalidTransition_DELIVERED (currentStatus : string) :
  isInvalidTransition currentStatus "DELIVERED" = true
  <-> currentStatus = "CANCELLED".
Proof.
  split; [|by intros ->].
  unfold isInvalidTransition, invalidTransitions. cbn [property].
  case_status currentStatus. done.
Qed.

Lemma isInvalidTransition_SHIPPED (currentStatus : string) :
  isInvalidTransition currentStatus "SHIPPED" = true
  <-> currentStatus = "DELIVERED" ∨ currentStatus = "CANCELLED".
Proof.
  split; [|by intros [->| ->]].
  unfold isInvalidTransition, invalidTransitions. cbn [property].
  case_status currentStatus; [by left|by right|done].
Qed.

(** The table is keyed by the current state: no target is refused
    from PLACED or from CONFIRMED, and what is refused from SHIPPED is
    the way back to them. *)
Lemma isInvalidTransition_from_PLACED (status : string) :
  isInvalidTransition "PLACED" status = false.
Proof. reflexivity. Qed.

Lemma isInvalidTransition_from_CONFIRMED (status : string) :
  isInvalidTransition "CONFIRMED" status = false.
Proof. reflexivity. Qed.

Lemma not_true_false (b : bool) : ¬ (b = true) → b = false.
Proof. by destruct b. Qed.

(** ** The steps of [UpdateOrderStatus] *)

(** Past the three checks, the body is the [switch] and the save. *)
Lemma UpdateOrderStatus_body_checked (id status : string) (σ : Store)
    (o : Order.t) :
  orders σ !! id = Some o →
  includes OrderConstants.OrderStatus status = true →
  isInvalidTransition (Order.order_status o) status = false →
  UpdateOrderStatus_body id status σ
  = '(σ1, order) ← switchStatus id status o σ;
    mret (Order_save id (Order.set_order_status status order) σ1,
          Order.set_order_status status order).
Proof.
  intros Hfind Hin Hok. unfold UpdateOrderStatus_body, Order_findById.
  rewrite Hfind, Hin, Hok. reflexivity.
Qed.

Lemma UpdateOrderStatus_body_refused (id status : string) (σ : Store)
    (o : Order.t) :
  orders σ !! id = Some o →
  includes OrderConstants.OrderStatus status = true →
  isInvalidTransition (Order.order_status o) status = true →
  UpdateOrderStatus_body id status σ
  = throw BAD_REQUEST (invalidStatusChange (Order.order_status o) status).
Proof.
  intros Hfind Hin Hok. unfold UpdateOrderStatus_body, Order_findById.
  rewrite Hfind, Hin, Hok. reflexivity.
Qed.

Lemma switchStatus_CANCELLED (id : string) (o : Order.t) (σ : Store) :
  switchStatus id "CANCELLED" o σ
  = if String.eqb (Order.payment_status o) "PAID" then
      mret (restock (Order.products o)
              (Payment_updateOne id
                 (Payment.set_status_clear_gateway "CANCELLED") σ),
            Order.set_payment_status "CANCELLED" o)
    else mret (σ, o).
Proof. reflexivity. Qed.

Lemma switchStatus_DELIVERED (id : string) (o : Order.t) (σ : Store) :
  switchStatus id "DELIVERED" o σ
  = if String.eqb (Order.payment_method o) "cash_on_delivery"
    then mret (σ, Order.set_payment_status "PAID" o)
    else mret (σ, o).
Proof. reflexivity. Qed.

Lemma switchStatus_SHIPPED (id : string) (o : Order.t) (σ : Store) :
  switchStatus id "SHIPPED" o σ
  = if negb (String.eqb (Order.payment_method o) "cash_on_delivery")
       && negb (String.eqb (Order.payment_status o) "PAID")
    then throw BAD_REQUEST "Cannot ship an order with incomplete payment"
    else mret (σ, o).
Proof. reflexivity. Qed.

(** ** Cancelling an order *)


(** C4. The table of refused transitions is keyed by the current
    state.  For an order that is PLACED or CONFIRMED the target SHIPPED
    is not refused by the table: the update succeeds when the order is
    cash-on-delivery or PAID, and fails with BadRequest on the payment
    guard otherwise.  What the entry of SHIPPED refuses is the way back:
    for an order that is SHIPPED, the targets PLACED and CONFIRMED fail
    with BadRequest and nothing is written. *)
Theorem UpdateOrderStatus_SHIPPED_table (id : string) (σ : Store)
    (o : Order.t) (Hfind : orders σ !! id = Some o) :
  (Order.order_status o = "PLACED" ∨ Order.order_status o = "CONFIRMED" →
     (Order.payment_method o = "cash_on_delivery"
      ∨ Order.payment_status o = "PAID" →
        UpdateOrderStatus id "SHIPPED" σ
        = (Order_save id (Order.set_order_status "SHIPPED" o) σ,
           inr (Order.set_order_status "SHIPPED" o)))
     ∧ (Order.payment_method o ≠ "cash_on_delivery"
        ∧ Order.payment_status o ≠ "PAID" →
        UpdateOrderStatus id "SHIPPED" σ
        = (σ, throw BAD_REQUEST
                "Cannot ship an order with incomplete payment")))
  ∧ (Order.order_status o = "SHIPPED" →
     ∀ target, target = "PLACED" ∨ target = "CONFIRMED" →
       UpdateOrderStatus id target σ
       = (σ, throw BAD_REQUEST (invalidStatusChange "SHIPPED" target))).
Proof.
  split.
  - intros Hcur.
    assert (Hok : isInvalidTransition (Order.order_status o) "SHIPPED" = false).
    { by destruct Hcur as [-> | ->]. }
    pose proof (UpdateOrderStatus_body_checked id "SHIPPED" σ o Hfind
                  eq_refl Hok) as Hbody.
    rewrite switchStatus_SHIPPED in Hbody.
    unfold UpdateOrderStatus, transaction. rewrite Hbody.
    split.
    + intros [Hcod | Hpaid].
      * rewrite Hcod. reflexivity.
      * rewrite Hpaid, andb_false_r. reflexivity.
    + intros [Hcod Hpaid].
      apply String.eqb_neq in Hcod, Hpaid. rewrite Hcod, Hpaid. reflexivity.
  - intros Hcur target Htarget.
    unfold UpdateOrderStatus. apply transaction_inl.
    rewrite (UpdateOrderStatus_body_refused id target σ o Hfind).
    + by rewrite Hcur.
    + by destruct Htarget as [-> | ->].
    + rewrite Hcur. by destruct Htarget as [-> | ->].
Qed.

(** A PLACED cash-on-delivery order goes to SHIPPED in one step. *)
Lemma UpdateOrderStatus_PLACED_to_SHIPPED :
  orders (Sample.shop_with
            (Sample.seclo_order "cash_on_delivery" "PLACED" "PENDING")
            (Sample.seclo_payment "PENDING")) !! "0"
  = Some (Sample.seclo_order "cash_on_delivery" "PLACED" "PENDING")
  ∧ Order.order_status
      (Sample.seclo_order "cash_on_delivery" "PLACED" "PENDING") = "PLACED"
  ∧ (UpdateOrderStatus "0" "SHIPPED"
       (Sample.shop_with
          (Sample.seclo_order "cash_on_delivery" "PLACED" "PENDING")
          (Sample.seclo_payment "PENDING"))).2
    = inr (Sample.seclo_order "cash_on_delivery" "SHIPPED" "PENDING").
Proof. split; [|split]; vm_compute; reflexivity. Qed.

(** ** Delivering an order *)

(** Every state but CANCELLED lets an order be delivered. *)
Lemma UpdateOrderStatus_DELIVERED_succeeds (id : string) (σ : Store)
    (o : Order.t) :
  orders σ !! id = Some o →
  Order.order_status o ≠ "CANCELLED" →
  ∃ σ' o', UpdateOrderStatus id "DELIVERED" σ = (σ', inr o').
Proof.
  intros Hfind Hcur.
  assert (Hok : isInvalidTransition (Order.order_status o) "DELIVERED" = false).
  { apply not_true_false. by rewrite isInvalidTransition_DELIVERED. }
  pose proof (UpdateOrderStatus_body_checked id "DELIVERED" σ o Hfind
                eq_refl Hok) as Hbody.
  rewrite switchStatus_DELIVERED in Hbody.
  unfold UpdateOrderStatus, transaction. rewrite Hbody.
  destruct (String.eqb (Order.payment_method o) "cash_on_delivery");
    eexists _, _; reflexivity.
Qed.

(** C9. For every stored cash-on-delivery order, an
    [UpdateOrderStatus] to DELIVERED that succeeds returns and saves the
    order with [payment_status] PAID (and [order_status] DELIVERED). *)
Theorem UpdateOrderStatus_DELIVERED_cash_on_delivery
    (id : string) (σ σ' : Store) (o o' : Order.t)
    (Hfind : orders σ !! id = Some o)
    (Hcod : Order.payment_method o = "cash_on_delivery")
    (Hsuccess : UpdateOrderStatus id "DELIVERED" σ = (σ', inr o')) :
  Order.payment_status o' = "PAID"
  ∧ Order.order_status o' = "DELIVERED"
  ∧ orders σ' !! id = Some o'
  ∧ o' = Order.set_order_status "DELIVERED"
           (Order.set_payment_status "PAID" o).
Proof.
  apply transaction_inr in Hsuccess.
  destruct (isInvalidTransition (Order.order_status o) "DELIVERED") eqn:Hok.
  - rewrite (UpdateOrderStatus_body_refused id "DELIVERED" σ o) in Hsuccess
      by done.
    discriminate.
  - rewrite (UpdateOrderStatus_body_checked id "DELIVERED" σ o) in Hsuccess
      by done.
    rewrite switchStatus_DELIVERED, Hcod in Hsuccess.
    inversion Hsuccess; subst.
    repeat split; try reflexivity.
    unfold Order_save, with_orders; cbn [orders]. apply lookup_insert_eq.
Qed.

(** The Payment collection is not written when an order is delivered. *)
Lemma UpdateOrderStatus_DELIVERED_frame
    (id : string) (σ σ' : Store) (o' : Order.t) :
  UpdateOrderStatus id "DELIVERED" σ = (σ', inr o') →
  payments σ' = payments σ ∧ products σ' = products σ.
Proof.
  intros Hsuccess. apply transaction_inr in Hsuccess.
  unfold UpdateOrderStatus_body in Hsuccess.
  destruct (Order_findById id σ) as [o|]; [|discriminate].
  destruct (negb _); [discriminate|].
  destruct (isInvalidTransition _ _); [discriminate|].
  rewrite switchStatus_DELIVERED in Hsuccess.
  destruct (String.eqb _ _); inversion Hsuccess; subst; done.
Qed.

(** C10. For every stored order that is not PAID, an
    [UpdateOrderStatus] to CANCELLED that succeeds writes one thing: the
    order, saved with [order_status] CANCELLED and every other field as
    it was.  No payment is written and no product is touched, so no
    stock comes back. *)
Theorem UpdateOrderStatus_CANCELLED_unpaid
    (id : string) (σ σ' : Store) (o o' : Order.t)
    (Hfind : orders σ !! id = Some o)
    (Hunpaid : Order.payment_status o ≠ "PAID")
    (Hsuccess : UpdateOrderStatus id "CANCELLED" σ = (σ', inr o')) :
  o' = Order.set_order_status "CANCELLED" o
  ∧ Order.payment_status o' = Order.payment_status o
  ∧ orders σ' = <[id := o']> (orders σ)
  ∧ payments σ' = payments σ
  ∧ products σ' = products σ
  ∧ users σ' = users σ.
Proof.
  apply transaction_inr in Hsuccess.
  destruct (isInvalidTransition (Order.order_status o) "CANCELLED") eqn:Hok.
  - rewrite (UpdateOrderStatus_body_refused id "CANCELLED" σ o) in Hsuccess
      by done.
    discriminate.
  - rewrite (UpdateOrderStatus_body_checked id "CANCELLED" σ o) in Hsuccess
      by done.
    apply String.eqb_neq in Hunpaid.
    rewrite switchStatus_CANCELLED, Hunpaid in Hsuccess.
    inversion Hsuccess; subst. done.
Qed.

(** An unpaid order can be cancelled from every state but DELIVERED. *)
Lemma cancel_unpaid_order_succeeds (id : string) (σ : Store)
    (o : Order.t) :
  orders σ !! id = Some o →
  Order.payment_status o ≠ "PAID" →
  Order.order_status o ≠ "DELIVERED" →
  UpdateOrderStatus id "CANCELLED" σ
  = (Order_save id (Order.set_order_status "CANCELLED" o) σ,
     inr (Order.set_order_status "CANCELLED" o)).
Proof.
  intros Hfind Hunpaid Hcur.
  assert (Hok : isInvalidTransition (Order.order_status o) "CANCELLED" = false).
  { apply not_true_false. by rewrite isInvalidTransition_CANCELLED. }
  pose proof (UpdateOrderStatus_body_checked id "CANCELLED" σ o Hfind
                eq_refl Hok) as Hbody.
  apply String.eqb_neq in Hunpaid.
  rewrite switchStatus_CANCELLED, Hunpaid in Hbody.
  unfold UpdateOrderStatus, transaction. by rewrite Hbody.
Qed.

(** ** Looking the requested products up *)

Lemma elem_of_Product_find (ids : list string) (σ : Store) k p :
  (k, p) ∈ Product_find ids σ
  ↔ products σ !! k = Some p ∧ k ∈ ids ∧ Product.is_deleted p = false.
Proof.
  unfold Product_find. rewrite list_elem_of_filter, elem_of_map_to_list.
  simpl. tauto.
Qed.

Lemma NoDup_Product_find (ids : list string) (σ : Store) :
  NoDup (Product_find ids σ).*1.
Proof.
  apply (sublist_NoDup _ (map_to_list (products σ)).*1).
  - apply NoDup_fst_map_to_list.
  - apply fmap_sublist, sublist_filter.
Qed.

Lemma elem_of_Product_find_ids (ids : list string) (σ : Store) k :
  k ∈ (Product_find ids σ).*1
  ↔ k ∈ ids ∧ ∃ p, products σ !! k = Some p ∧ Product.is_deleted p = false.
Proof.
  rewrite list_elem_of_fmap. split.
  - intros [[k' p] [-> Hin]].
    apply elem_of_Product_find in Hin as (Hp & Hk & Hdel).
    split; [done|]. by exists p.
  - intros [Hk [p [Hp Hdel]]]. exists (k, p). split; [done|].
    by apply elem_of_Product_find.
Qed.

Lemma Product_find_submseteq (ids : list string) (σ : Store) :
  (Product_find ids σ).*1 ⊆+ ids.
Proof.
  apply NoDup_submseteq; [apply NoDup_Product_find|].
  intros k Hk. by apply elem_of_Product_find_ids in Hk as [? _].
Qed.

(** When as many products come back as ids were asked for, the ids are
    distinct and each of them names a product that is not deleted. *)
Lemma Product_find_full (ids : list string) (σ : Store) :
  length (Product_find ids σ) = length ids →
  (Product_find ids σ).*1 ≡ₚ ids.
Proof.
  intros Hlen. apply submseteq_length_Permutation.
  - apply Product_find_submseteq.
  - rewrite length_fmap. lia.
Qed.

Lemma Product_find_all_resolve (ids : list string) (σ : Store) :
  NoDup ids →
  (∀ k, k ∈ ids →
        ∃ p, products σ !! k = Some p ∧ Product.is_deleted p = false) →
  length (Product_find ids σ) = length ids.
Proof.
  intros Hnd Hall.
  rewrite <- (length_fmap fst (Product_find ids σ)).
  apply Permutation_length, NoDup_Permutation;
    [apply NoDup_Product_find|done|].
  intros k. rewrite elem_of_Product_find_ids.
  split; [by intros [? _]|]. intros Hk. split; [done|by apply Hall].
Qed.

(** One id that names no product, or a deleted one, and fewer products
    come back than ids were asked for. *)
Lemma Product_find_missing (ids : list string) (σ : Store) (k : string) :
  k ∈ ids →
  ¬ (∃ p, products σ !! k = Some p ∧ Product.is_deleted p = false) →
  length (Product_find ids σ) ≠ length ids.
Proof.
  intros Hk Hmiss Hlen. apply Hmiss.
  pose proof (Product_find_full ids σ Hlen) as Hperm.
  rewrite <- Hperm in Hk. by apply elem_of_Product_find_ids in Hk as [_ ?].
Qed.

(** ** The line of a product *)

Lemma find_orderItem_Some (items : list OrderItem.t) (pid : string) item :
  List.find (λ i, String.eqb (OrderItem.product_id i) pid) items = Some item →
  item ∈ items ∧ OrderItem.product_id item = pid.
Proof.
  induction items as [|i items IH]; simpl; [done|].
  destruct (String.eqb_spec (OrderItem.product_id i) pid) as [Heq|Hne].
  - intros [= ->]. split; [left|done].
  - intros H. destruct (IH H) as [Hin Hpid]. split; [by right|done].
Qed.

Lemma find_orderItem_NoDup (items : list OrderItem.t) (item : OrderItem.t) :
  NoDup (map OrderItem.product_id items) →
  item ∈ items →
  List.find (λ i, String.eqb (OrderItem.product_id i)
                             (OrderItem.product_id item)) items
  = Some item.
Proof.
  induction items as [|i items IH]; simpl.
  - intros _ Hin. by apply elem_of_nil in Hin.
  - intros Hnd Hin. apply NoDup_cons in Hnd as [Hnot Hnd].
    apply elem_of_cons in Hin as [->|Hin].
    + by rewrite String.eqb_refl.
    + destruct (String.eqb_spec (OrderItem.product_id i)
                                (OrderItem.product_id item)) as [Heq|Hne].
      * exfalso. apply Hnot. rewrite Heq.
        apply list_elem_of_fmap. by exists item.
      * by apply IH.
Qed.

(** ** The loop over the requested products *)

(** Every error of the loop is the same one. *)
Lemma mapRequestedProducts_inl items req sub ups e :
  mapRequestedProducts items req sub ups = inl e →
  e = mkAppError BAD_REQUEST "Product out of stock".
Proof.
  revert sub ups. induction req as [|[pid p] rest IH]; intros sub ups H.
  - discriminate.
  - cbn [mapRequestedProducts] in H.
    destruct (List.find _ items) as [item|]; [|by inversion H].
    destruct (num_lt _ _); [by inversion H|].
    destruct (mapRequestedProducts items rest _ _) as [e'|[[s u] l]] eqn:E.
    + inversion H; subst. by apply (IH _ _ E).
    + discriminate.
Qed.

(** The loop throws as soon as one product is short of stock. *)
Lemma mapRequestedProducts_out_of_stock items req sub ups pid p item :
  (pid, p) ∈ req →
  List.find (λ i, String.eqb (OrderItem.product_id i) pid) items = Some item →
  Product.stock p < OrderItem.quantity item →
  mapRequestedProducts items req sub ups
  = throw BAD_REQUEST "Product out of stock".
Proof.
  intros Hin Hfind Hshort.
  destruct (mapRequestedProducts items req sub ups) as [e|r] eqn:E.
  { apply mapRequestedProducts_inl in E. by subst e. }
  exfalso. revert sub ups r E.
  induction req as [|[pid' p'] rest IH]; intros sub ups r E.
  - by apply elem_of_nil in Hin.
  - cbn [mapRequestedProducts] in E.
    apply elem_of_cons in Hin as [[= <- <-]|Hin].
    + rewrite Hfind in E. apply num_lt_true in Hshort.
      rewrite Hshort in E. discriminate.
    + destruct (List.find
                  (λ i, String.eqb (OrderItem.product_id i) pid') items)
        as [item'|]; [|discriminate].
      destruct (num_lt _ _); [discriminate|].
      destruct (mapRequestedProducts items rest _ _) as [e'|r'] eqn:E';
        [discriminate|].
      by apply (IH Hin _ _ r' E').
Qed.

(** The loop runs through when every product has a line it can serve. *)
Lemma mapRequestedProducts_in_stock items req sub ups :
  (∀ pid p, (pid, p) ∈ req →
     ∃ item,
       List.find (λ i, String.eqb (OrderItem.product_id i) pid) items
         = Some item
       ∧ OrderItem.quantity item <= Product.stock p) →
  ∃ r, mapRequestedProducts items req sub ups = inr r.
Proof.
  revert sub ups. induction req as [|[pid p] rest IH]; intros sub ups Hall.
  - by eexists.
  - cbn [mapRequestedProducts].
    destruct (Hall pid p) as [item [Hfind Hle]]; [left|].
    rewrite Hfind. apply num_lt_false in Hle. rewrite Hle.
    edestruct IH as [[[s u] l] Hr].
    { intros pid' p' Hin. apply Hall. by right. }
    rewrite Hr. by eexists.
Qed.

(** What the loop yields: the subtotal grown by the total of each line,
    one snapshot line and one stock update per product, in order. *)
Lemma mapRequestedProducts_inr items req sub ups sub' ups' lines :
  mapRequestedProducts items req sub ups = inr (sub', ups', lines) →
  sub' = foldl (λ acc line, acc + lineTotal line) sub lines
  ∧ map OrderItems.product_id lines = req.*1
  ∧ ∃ new,
      ups' = (ups ++ new)%list
      ∧ map productId new = req.*1
      ∧ Forall2
          (λ kp u,
             ∃ item,
               List.find (λ i, String.eqb (OrderItem.product_id i) kp.1)
                         items = Some item
               ∧ OrderItem.quantity item <= Product.stock kp.2
               ∧ u = mkStockUpdate kp.1
                       (Product.stock kp.2 - OrderItem.quantity item))
          req new
      ∧ Forall2
          (λ kp line,
             ∃ item,
               List.find (λ i, String.eqb (OrderItem.product_id i) kp.1)
                         items = Some item
               ∧ line = snapshot kp.1 kp.2 item)
          req lines.
Proof.
  revert sub ups sub' ups' lines.
  induction req as [|[pid p] rest IH]; intros sub ups sub' ups' lines H.
  - inversion H; subst. repeat split; try done.
    exists []. rewrite app_nil_r. repeat split; constructor.
  - cbn [mapRequestedProducts] in H.
    destruct (List.find _ items) as [item|] eqn:Hfind; [|discriminate].
    destruct (num_lt _ _) eqn:Hlt; [discriminate|].
    destruct (mapRequestedProducts items rest _ _) as [e'|[[s u] l]] eqn:E;
      [discriminate|].
    inversion H; subst; clear H.
    apply IH in E as (Hsub & Hids & new & Hups & Hnew & Hall & Hlines).
    apply num_lt_false in Hlt.
    split; [exact Hsub|]. split; [simpl; by rewrite Hids|].
    exists (mkStockUpdate pid
              (Product.stock p - OrderItem.quantity item) :: new).
    split; [by rewrite Hups, <- app_assoc|].
    split; [simpl; by rewrite Hnew|].
    split; constructor; try done; by exists item.
Qed.

(** ** Writing the stock *)

Lemma applyStockUpdates_users ups σ : users (applyStockUpdates ups σ) = users σ.
Proof.
  revert σ. induction ups as [|u ups IH]; intros σ; simpl; [done|].
  by rewrite IH.
Qed.

Lemma applyStockUpdates_orders ups σ :
  orders (applyStockUpdates ups σ) = orders σ.
Proof.
  revert σ. induction ups as [|u ups IH]; intros σ; simpl; [done|].
  by rewrite IH.
Qed.

Lemma applyStockUpdates_payments ups σ :
  payments (applyStockUpdates ups σ) = payments σ.
Proof.
  revert σ. induction ups as [|u ups IH]; intros σ; simpl; [done|].
  by rewrite IH.
Qed.

(** A product no update names is left alone. *)
Lemma applyStockUpdates_other ups σ pid :
  pid ∉ map productId ups →
  products (applyStockUpdates ups σ) !! pid = products σ !! pid.
Proof.
  revert σ. induction ups as [|u ups IH]; intros σ Hnot; simpl; [done|].
  rewrite IH.
  - unfold Product_updateOne, with_products; cbn [products].
    rewrite lookup_alter_ne; [done|].
    intros Heq. apply Hnot. rewrite <- Heq. left.
  - intros Hin. apply Hnot. by right.
Qed.

(** A product an update names ends with [in_stock] set to whether its
    stock is positive. *)
Lemma applyStockUpdates_flag ups σ pid p' :
  pid ∈ map productId ups →
  products (applyStockUpdates ups σ) !! pid = Some p' →
  Product.in_stock p' = num_gt (Product.stock p') 0.
Proof.
  revert σ. induction ups as [|u ups IH]; intros σ Hin Hp'; simpl in *.
  - by apply elem_of_nil in Hin.
  - destruct (decide (pid ∈ map productId ups)) as [Hlater|Hlater].
    + by apply (IH _ Hlater Hp').
    + apply elem_of_cons in Hin as [->|Hin]; [|done].
      rewrite applyStockUpdates_other in Hp' by done.
      unfold Product_updateOne, with_products in Hp'; cbn [products] in Hp'.
      rewrite lookup_alter_eq in Hp'.
      destruct (products σ !! productId u) as [p|]; [|discriminate].
      inversion Hp'; subst. reflexivity.
Qed.

(** With distinct ids, each update sets the stock it carries. *)
Lemma applyStockUpdates_lookup ups σ u p :
  NoDup (map productId ups) →
  u ∈ ups →
  products σ !! productId u = Some p →
  products (applyStockUpdates ups σ) !! productId u
  = Some (Product.set_stock_and_flag (newStock u) (num_gt (newStock u) 0) p).
Proof.
  revert σ. induction ups as [|u' ups IH]; intros σ Hnd Hin Hp; simpl in *.
  - by apply elem_of_nil in Hin.
  - apply NoDup_cons in Hnd as [Hnot Hnd].
    apply elem_of_cons in Hin as [->|Hin].
    + rewrite applyStockUpdates_other by done.
      unfold Product_updateOne, with_products; cbn [products].
      by rewrite lookup_alter_eq, Hp.
    + apply IH; [done|done|].
      unfold Product_updateOne, with_products; cbn [products].
      rewrite lookup_alter_ne; [done|].
      intros Heq. apply Hnot. rewrite Heq.
      apply list_elem_of_fmap. by exists u.
Qed.

(** ** Creating an order *)

Section create_order.
Variable uploadToCloudinary : FileInterface.t → string → string → string.
Variable schema : SchemaDefaults.
Variable uuids : Uuids.
Variable payload : Payload.t.
Variable file : option FileInterface.t.
Variable user : JwtPayload.t.
Variable σ : Store.

Local Abbreviation items := (Payload.products payload).
Local Abbreviation ids := (map OrderItem.product_id (Payload.products payload)).
Local Abbreviation body :=
  (CreateOrder_body uploadToCloudinary schema uuids payload file user).
Local Abbreviation run :=
  (CreateOrder uploadToCloudinary schema uuids payload file user).

Lemma length_eqb_false (A B : Type) (l : list A) (k : list B) :
  length l ≠ length k → negb (length l =? length k)%nat = true.
Proof. intros H. apply negb_true_iff. by apply Nat.eqb_neq. Qed.

Lemma length_eqb_true (A B : Type) (l : list A) (k : list B) :
  length l = length k → negb (length l =? length k)%nat = false.
Proof. intros H. apply negb_false_iff. by apply Nat.eqb_eq. Qed.

(** The guards of [CreateOrder], in the order they are met. *)
Lemma CreateOrder_body_no_user :
  User_findOne (JwtPayload.email user) σ = None →
  body σ = throw UNAUTHORIZED "User not found".
Proof. intros Huser. unfold CreateOrder_body. by rewrite Huser. Qed.

Lemma CreateOrder_body_not_found requestedUser :
  User_findOne (JwtPayload.email user) σ = Some requestedUser →
  length (Product_find ids σ) ≠ length ids →
  body σ = throw BAD_REQUEST "Product not found".
Proof.
  intros Huser Hlen. unfold CreateOrder_body. rewrite Huser.
  by rewrite length_eqb_false.
Qed.

Lemma CreateOrder_body_no_prescription requestedUser :
  User_findOne (JwtPayload.email user) σ = Some requestedUser →
  length (Product_find ids σ) = length ids →
  existsb (λ kp, Product.requires_prescription kp.2) (Product_find ids σ)
    = true →
  file = None →
  body σ = throw BAD_REQUEST "Prescription required".
Proof.
  intros Huser Hlen Hrx Hfile. unfold CreateOrder_body. rewrite Huser.
  rewrite length_eqb_true by done.
  by rewrite Hrx, Hfile.
Qed.

Lemma CreateOrder_body_out_of_stock requestedUser e :
  User_findOne (JwtPayload.email user) σ = Some requestedUser →
  length (Product_find ids σ) = length ids →
  mapRequestedProducts items (Product_find ids σ) 0 [] = inl e →
  ∃ e', body σ = inl e' ∧ statusCode e' = BAD_REQUEST.
Proof.
  intros Huser Hlen Hloop. unfold CreateOrder_body. rewrite Huser.
  rewrite length_eqb_true by done.
  apply mapRequestedProducts_inl in Hloop as Hloop'. subst e.
  destruct (existsb _ _); [destruct file|]; cbn.
  - rewrite Hloop. by eexists.
  - by eexists.
  - rewrite Hloop. by eexists.
Qed.

(** Past the guards, the order is built, stored and paid for. *)
Lemma CreateOrder_body_inr σ' oid o :
  body σ = inr (σ', (oid, o)) →
  ∃ requestedUser subtotal stockUpdates,
    User_findOne (JwtPayload.email user) σ = Some requestedUser
    ∧ length (Product_find ids σ) = length ids
    ∧ mapRequestedProducts items (Product_find ids σ) 0 []
      = inr (subtotal, stockUpdates, Order.products o)
    ∧ Order.subtotal o = subtotal
    ∧ Order.delivery_charge o = (if num_gt subtotal 1000 then 0 else 50)
    ∧ Order.grand_total o = subtotal + Order.delivery_charge o
    ∧ Order.order_id o = OrderUtils.generateOrderId (order_uuid uuids)
    ∧ Order.prescription o
      = (if existsb (λ kp, Product.requires_prescription kp.2)
                    (Product_find ids σ)
         then (λ f, uploadToCloudinary f
                      (OrderUtils.generateOrderId (order_uuid uuids))
                      "medimart/prescriptions") <$> file
         else None)
    ∧ Order.order_status o = default_order_status schema
    ∧ Order.payment_status o = default_order_payment_status schema
    ∧ oid = fresh (dom (orders σ))
    ∧ σ' = Payment_create
             (Payment.mk oid (Order.grand_total o) (Order.transaction_id o)
                (default_payment_payment_status schema) None)
             (applyStockUpdates stockUpdates (Order_create o σ).2).
Proof.
  unfold CreateOrder_body.
  destruct (User_findOne _ σ) as [requestedUser|]; [|discriminate].
  destruct (negb _) eqn:Hlen; [discriminate|].
  apply negb_false_iff, Nat.eqb_eq in Hlen.
  intros H. exists requestedUser.
  destruct (existsb _ (Product_find ids σ)); [destruct file|]; cbn in H;
    try discriminate;
    destruct (mapRequestedProducts items _ _ _) as [e|[[sub ups] lines]];
    try discriminate; cbn in H; inversion H; subst; clear H;
    exists sub, ups; repeat split; done.
Qed.

(** A failed [CreateOrder] has written nothing. *)
Lemma CreateOrder_inl σ' e : run σ = (σ', inl e) → σ' = σ.
Proof. apply transaction_abort. Qed.

End create_order.

(** The payment created with the order is for its grand total. *)
Lemma CreateOrder_payment
    (uploadToCloudinary : FileInterface.t → string → string → string)
    (schema : SchemaDefaults) (uuids : Uuids) (payload : Payload.t)
    (file : option FileInterface.t) (user : JwtPayload.t)
    (σ σ' : Store) (oid : string) (o : Order.t) :
  CreateOrder uploadToCloudinary schema uuids payload file user σ
  = (σ', inr (oid, o)) →
  payments σ'
  = (payments σ ++
     [Payment.mk oid (Order.grand_total o) (Order.transaction_id o)
        (default_payment_payment_status schema) None])%list.
Proof.
  intros Hcreated.
  apply transaction_inr, CreateOrder_body_inr in Hcreated
    as (u & sub & ups & _ & _ & _ & _ & _ & _ & _ & _ & _ & _ & _ & Hσ').
  subst σ'. unfold Payment_create, with_payments; cbn [payments].
  by rewrite applyStockUpdates_payments.
Qed.

(** The lines of a created order name distinct products. *)
Lemma CreateOrder_lines_NoDup
    (uploadToCloudinary : FileInterface.t → string → string → string)
    (schema : SchemaDefaults) (uuids : Uuids) (payload : Payload.t)
    (file : option FileInterface.t) (user : JwtPayload.t)
    (σ σ' : Store) (oid : string) (o : Order.t) :
  CreateOrder uploadToCloudinary schema uuids payload file user σ
  = (σ', inr (oid, o)) →
  NoDup (map OrderItems.product_id (Order.products o)).
Proof.
  intros Hcreated.
  apply transaction_inr, CreateOrder_body_inr in Hcreated
    as (u & sub & ups & _ & _ & Hloop & _).
  apply mapRequestedProducts_inr in Hloop as (_ & Hids & _).
  rewrite Hids. apply NoDup_Product_find.
Qed.

(** The stock decrement of order creation keeps [in_stock] in step:
    every product the order names ends with [in_stock] set to whether
    its stock is positive, and no other product is written. *)
Lemma CreateOrder_in_stock
    (uploadToCloudinary : FileInterface.t → string → string → string)
    (schema : SchemaDefaults) (uuids : Uuids) (payload : Payload.t)
    (file : option FileInterface.t) (user : JwtPayload.t)
    (σ σ' : Store) (oid : string) (o : Order.t) :
  CreateOrder uploadToCloudinary schema uuids payload file user σ
  = (σ', inr (oid, o)) →
  ∀ pid p',
    products σ' !! pid = Some p' →
    (pid ∈ map OrderItems.product_id (Order.products o) →
       Product.in_stock p' = num_gt (Product.stock p') 0)
    ∧ (pid ∉ map OrderItems.product_id (Order.products o) →
       products σ !! pid = Some p').
Proof.
  intros Hcreated pid p' Hp'.
  apply transaction_inr, CreateOrder_body_inr in Hcreated
    as (u & sub & ups & _ & _ & Hloop & _ & _ & _ & _ & _ & _ & _ & _ & Hσ').
  apply mapRequestedProducts_inr in Hloop
    as (_ & Hids & new & Hups & Hnew & _).
  rewrite app_nil_l in Hups. subst ups σ'.
  unfold Payment_create, with_payments in Hp'; cbn [products] in Hp'.
  rewrite Hids, <- Hnew. split.
  - intros Hin. by apply (applyStockUpdates_flag new (Order_create o σ).2 pid).
  - intros Hnot. by rewrite applyStockUpdates_other in Hp'.
Qed.

(** A created order is stored under the id [CreateOrder] returns. *)
Lemma CreateOrder_stored
    (uploadToCloudinary : FileInterface.t → string → string → string)
    (schema : SchemaDefaults) (uuids : Uuids) (payload : Payload.t)
    (file : option FileInterface.t) (user : JwtPayload.t)
    (σ σ' : Store) (oid : string) (o : Order.t) :
  CreateOrder uploadToCloudinary schema uuids payload file user σ
  = (σ', inr (oid, o)) →
  orders σ !! oid = None ∧ orders σ' = <[oid := o]> (orders σ).
Proof.
  intros Hcreated.
  apply transaction_inr, CreateOrder_body_inr in Hcreated
    as (u & sub & ups & _ & _ & _ & _ & _ & _ & _ & _ & _ & _ & Hoid & Hσ').
  subst σ' oid. split.
  - apply not_elem_of_dom, is_fresh.
  - unfold Payment_create, with_payments; cbn [orders].
    by rewrite applyStockUpdates_orders.
Qed.

(** When all the products of a request come back, a line of the request
    is the line [find] gives for its product, and its product is among
    those that came back. *)
Lemma requested_line (items : list OrderItem.t) (σ : Store)
    (item : OrderItem.t) (p : Product.t) :
  length (Product_find (map OrderItem.product_id items) σ)
  = length (map OrderItem.product_id items) →
  item ∈ items →
  products σ !! OrderItem.product_id item = Some p →
  (OrderItem.product_id item, p)
    ∈ Product_find (map OrderItem.product_id items) σ
  ∧ List.find (λ i, String.eqb (OrderItem.product_id i)
                               (OrderItem.product_id item)) items
    = Some item.
Proof.
  intros Hlen Hin Hp.
  pose proof (Product_find_full _ σ Hlen) as Hperm.
  assert (Hid : OrderItem.product_id item ∈ map OrderItem.product_id items).
  { apply list_elem_of_fmap. by exists item. }
  split.
  - rewrite <- Hperm in Hid.
    apply elem_of_Product_find_ids in Hid as (Hid & p' & Hp' & Hdel).
    rewrite Hp in Hp'. inversion Hp'; subst p'.
    by apply elem_of_Product_find.
  - apply find_orderItem_NoDup; [|done].
    rewrite <- Hperm. apply NoDup_Product_find.
Qed.

(** C6. For every order request in which the quantity of some line
    exceeds the stock of its product, [CreateOrder] fails and the store
    is left as it was: no order, no payment, no stock is written.  The
    error is BadRequest whenever the user of the request resolves to an
    active account; when it does not, the user guard, which comes
    first, answers Unauthorized. *)
Theorem CreateOrder_insufficient_stock
    (uploadToCloudinary : FileInterface.t → string → string → string)
    (schema : SchemaDefaults) (uuids : Uuids) (payload : Payload.t)
    (file : option FileInterface.t) (user : JwtPayload.t) (σ : Store)
    (item : OrderItem.t) (p : Product.t)
    (Hline : item ∈ Payload.products payload)
    (Hproduct : products σ !! OrderItem.product_id item = Some p)
    (Hshort : Product.stock p < OrderItem.quantity item) :
  ∃ e,
    CreateOrder uploadToCloudinary schema uuids payload file user σ
    = (σ, inl e)
    ∧ (is_Some (User_findOne (JwtPayload.email user) σ) →
       statusCode e = BAD_REQUEST)
    ∧ (User_findOne (JwtPayload.email user) σ = None →
       e = mkAppError UNAUTHORIZED "User not found").
Proof.
  unfold CreateOrder.
  destruct (User_findOne (JwtPayload.email user) σ) as [u|] eqn:Huser.
  - destruct (decide
      (length (Product_find
                 (map OrderItem.product_id (Payload.products payload)) σ)
       = length (map OrderItem.product_id (Payload.products payload))))
      as [Hlen|Hlen].
    + destruct (requested_line _ σ item p Hlen Hline Hproduct)
        as [Hfound Hfind].
      pose proof (mapRequestedProducts_out_of_stock
                    (Payload.products payload) _ 0 [] _ p item
                    Hfound Hfind Hshort) as Hloop.
      destruct (CreateOrder_body_out_of_stock uploadToCloudinary schema
                  uuids payload file user σ u _ Huser Hlen Hloop)
        as (e & Hbody & Hcode).
      exists e. split; [by apply transaction_inl|]. by split.
    + eexists. split.
      * apply transaction_inl.
        apply (CreateOrder_body_not_found _ _ _ _ _ _ _ u Huser Hlen).
      * by split.
  - eexists. split.
    + apply transaction_inl. by apply CreateOrder_body_no_user.
    + split; [by intros [? ?]|done].
Qed.

(** An over-stock request under a token with no account: Unauthorized. *)
Lemma CreateOrder_over_stock_unknown_user :
  OrderItem.mk "p1" 6
    ∈ Payload.products
        (Sample.request [OrderItem.mk "p1" 6] "cash_on_delivery")
  ∧ products Sample.shop !! "p1" = Some Sample.napa
  ∧ Product.stock Sample.napa < 6
  ∧ (CreateOrder Sample.upload Sample.schema Sample.uuids
       (Sample.request [OrderItem.mk "p1" 6] "cash_on_delivery")
       None Sample.mallory_token Sample.shop).2
    = inl (mkAppError UNAUTHORIZED "User not found").
Proof.
  split; [left|]. split; [by vm_compute|]. split; [reflexivity|].
  by vm_compute.
Qed.

(** C8. For every order request in which some product id names no
    product, or a deleted one, [CreateOrder] fails and writes nothing;
    the error is never NotFound: it is BadRequest, with the message
    "Product not found", whenever the user of the request resolves to
    an active account, and Unauthorized when it does not. *)
Theorem CreateOrder_product_not_found
    (uploadToCloudinary : FileInterface.t → string → string → string)
    (schema : SchemaDefaults) (uuids : Uuids) (payload : Payload.t)
    (file : option FileInterface.t) (user : JwtPayload.t) (σ : Store)
    (item : OrderItem.t)
    (Hline : item ∈ Payload.products payload)
    (Hmissing :
       ¬ ∃ p, products σ !! OrderItem.product_id item = Some p
              ∧ Product.is_deleted p = false) :
  ∃ e,
    CreateOrder uploadToCloudinary schema uuids payload file user σ
    = (σ, inl e)
    ∧ statusCode e ≠ NOT_FOUND
    ∧ (is_Some (User_findOne (JwtPayload.email user) σ) →
       e = mkAppError BAD_REQUEST "Product not found")
    ∧ (User_findOne (JwtPayload.email user) σ = None →
       e = mkAppError UNAUTHORIZED "User not found").
Proof.
  unfold CreateOrder.
  destruct (User_findOne (JwtPayload.email user) σ) as [u|] eqn:Huser.
  - eexists. split.
    + apply transaction_inl.
      apply (CreateOrder_body_not_found _ _ _ _ _ _ _ u Huser).
      apply (Product_find_missing _ σ (OrderItem.product_id item));
        [|done].
      apply list_elem_of_fmap. by exists item.
    + by repeat split.
  - eexists. split.
    + apply transaction_inl. by apply CreateOrder_body_no_user.
    + split; [done|]. split; [by intros [? ?]|done].
Qed.

(** A request that names a product the shop does not have: BadRequest. *)
Lemma CreateOrder_unknown_product_BAD_REQUEST :
  OrderItem.mk "p9" 1
    ∈ Payload.products
        (Sample.request [OrderItem.mk "p1" 1; OrderItem.mk "p9" 1]
                        "cash_on_delivery")
  ∧ products Sample.shop !! "p9" = None
  ∧ (CreateOrder Sample.upload Sample.schema Sample.uuids
       (Sample.request [OrderItem.mk "p1" 1; OrderItem.mk "p9" 1]
                       "cash_on_delivery")
       None Sample.alice_token Sample.shop).2
    = inl (mkAppError BAD_REQUEST "Product not found").
Proof.
  split; [right; left|]. split; by vm_compute.
Qed.

(** C7. For every order request that names a product which requires a
    prescription: with no file attached [CreateOrder] fails and writes
    nothing, with BadRequest whenever the user of the request resolves
    to an active account (Unauthorized, from the user guard, when it
    does not); with a file attached, a resolved user, distinct product
    ids that all name products which are not deleted, and stock for
    every line, it succeeds, and the order it stores carries the
    reference the upload answered for the file under the order id
    generated beforehand. *)
Theorem CreateOrder_prescription
    (uploadToCloudinary : FileInterface.t → string → string → string)
    (schema : SchemaDefaults) (uuids : Uuids) (payload : Payload.t)
    (file : option FileInterface.t) (user : JwtPayload.t) (σ : Store)
    (item : OrderItem.t) (p : Product.t)
    (Hline : item ∈ Payload.products payload)
    (Hproduct : products σ !! OrderItem.product_id item = Some p)
    (Hrx : Product.requires_prescription p = true) :
  (file = None →
   ∃ e,
     CreateOrder uploadToCloudinary schema uuids payload file user σ
     = (σ, inl e)
     ∧ (is_Some (User_findOne (JwtPayload.email user) σ) →
        statusCode e = BAD_REQUEST)
     ∧ (User_findOne (JwtPayload.email user) σ = None →
        e = mkAppError UNAUTHORIZED "User not found"))
  ∧ (∀ f,
       file = Some f →
       is_Some (User_findOne (JwtPayload.email user) σ) →
       NoDup (map OrderItem.product_id (Payload.products payload)) →
       (∀ i, i ∈ Payload.products payload →
          ∃ q, products σ !! OrderItem.product_id i = Some q
               ∧ Product.is_deleted q = false
               ∧ OrderItem.quantity i <= Product.stock q) →
       ∃ σ' oid o,
         CreateOrder uploadToCloudinary schema uuids payload file user σ
         = (σ', inr (oid, o))
         ∧ orders σ' !! oid = Some o
         ∧ Order.order_id o = OrderUtils.generateOrderId (order_uuid uuids)
         ∧ Order.prescription o
           = Some (uploadToCloudinary f (Order.order_id o)
                     "medimart/prescriptions")).
Proof.
  split.
  - intros Hfile. unfold CreateOrder.
    destruct (User_findOne (JwtPayload.email user) σ) as [u|] eqn:Huser.
    + destruct (decide
        (length (Product_find
                   (map OrderItem.product_id (Payload.products payload)) σ)
         = length (map OrderItem.product_id (Payload.products payload))))
        as [Hlen|Hlen].
      * destruct (requested_line _ σ item p Hlen Hline Hproduct)
          as [Hfound _].
        eexists. split.
        -- apply transaction_inl.
           apply (CreateOrder_body_no_prescription _ _ _ _ _ _ _ u Huser
                    Hlen); [|done].
           apply existsb_exists. exists (OrderItem.product_id item, p).
           split; [by apply list_elem_of_In|done].
        -- by split.
      * eexists. split.
        -- apply transaction_inl.
           apply (CreateOrder_body_not_found _ _ _ _ _ _ _ u Huser Hlen).
        -- by split.
    + eexists. split.
      * apply transaction_inl. by apply CreateOrder_body_no_user.
      * split; [by intros [? ?]|done].
  - intros f Hfile [u Huser] Hnd Hall.
    assert (Hlen :
      length (Product_find
                (map OrderItem.product_id (Payload.products payload)) σ)
      = length (map OrderItem.product_id (Payload.products payload))).
    { apply Product_find_all_resolve; [done|].
      intros k Hk. apply list_elem_of_fmap in Hk as (i & -> & Hi).
      destruct (Hall i Hi) as (q & Hq & Hdel & _). by exists q. }
    destruct (requested_line _ σ item p Hlen Hline Hproduct) as [Hfound _].
    assert (Hexists :
      existsb (λ kp, Product.requires_prescription kp.2)
        (Product_find
           (map OrderItem.product_id (Payload.products payload)) σ) = true).
    { apply existsb_exists. exists (OrderItem.product_id item, p).
      split; [by apply list_elem_of_In|done]. }
    destruct (mapRequestedProducts_in_stock (Payload.products payload)
                (Product_find
                   (map OrderItem.product_id (Payload.products payload)) σ)
                0 []) as [[[sub ups] lines] Hloop].
    { intros pid q Hq. apply elem_of_Product_find in Hq as (Hq & Hpid & _).
      apply list_elem_of_fmap in Hpid as (i & -> & Hi).
      exists i. split; [by apply find_orderItem_NoDup|].
      destruct (Hall i Hi) as (q' & Hq' & _ & Hle).
      rewrite Hq in Hq'. by inversion Hq'; subst. }
    assert (Hrun : ∃ σ' oid o,
      CreateOrder uploadToCloudinary schema uuids payload file user σ
      = (σ', inr (oid, o))).
    { unfold CreateOrder, transaction, CreateOrder_body.
      rewrite Huser, length_eqb_true, Hexists, Hfile by done. cbn.
      rewrite Hloop. cbn. by eexists _, _, _. }
    destruct Hrun as (σ' & oid & o & Hrun).
    exists σ', oid, o. split; [done|].
    destruct (CreateOrder_stored _ _ _ _ _ _ _ _ _ _ Hrun) as [_ Hstored].
    apply transaction_inr, CreateOrder_body_inr in Hrun
      as (u' & sub' & ups' & _ & _ & _ & _ & _ & _ & Hid & Hpresc & _).
    split; [rewrite Hstored; apply lookup_insert_eq|]. split; [done|].
    rewrite Hpresc, Hexists, Hfile, Hid. reflexivity.
Qed.

(** A request for a prescription drug, without a file, under a token
    with no account: Unauthorized. *)
Lemma CreateOrder_no_prescription_unknown_user :
  OrderItem.mk "p3" 1
    ∈ Payload.products
        (Sample.request [OrderItem.mk "p3" 1] "cash_on_delivery")
  ∧ products Sample.shop !! "p3" = Some Sample.amoxicillin
  ∧ Product.requires_prescription Sample.amoxicillin = true
  ∧ (CreateOrder Sample.upload Sample.schema Sample.uuids
       (Sample.request [OrderItem.mk "p3" 1] "cash_on_delivery")
       None Sample.mallory_token Sample.shop).2
    = inl (mkAppError UNAUTHORIZED "User not found").
Proof.
  split; [left|]. split; [by vm_compute|]. split; [reflexivity|].
  by vm_compute.
Qed.

(** ** The workflow on the sample shop *)

(** Placing two units of Seclo, all the shop has. *)
Example CreateOrder_seclo :
  CreateOrder Sample.upload Sample.schema Sample.uuids
    (Sample.request [OrderItem.mk "p2" 2] "cash_on_delivery")
    None Sample.alice_token Sample.shop
  = (Sample.shop_with
       (Sample.seclo_order "cash_on_delivery" "PLACED" "PENDING")
       (Sample.seclo_payment "PENDING"),
     inr ("0", Sample.seclo_order "cash_on_delivery" "PLACED" "PENDING")).
Proof. by vm_compute. Qed.

(** ** The stock flag after a cancellation *)

Lemma cancel_paid_order_run (id : string) (σ : Store)
    (o : Order.t) :
  orders σ !! id = Some o →
  Order.payment_status o = "PAID" →
  Order.order_status o ≠ "DELIVERED" →
  UpdateOrderStatus id "CANCELLED" σ
  = (Order_save id
       (Order.set_order_status "CANCELLED"
          (Order.set_payment_status "CANCELLED" o))
       (restock (Order.products o)
          (Payment_updateOne id
             (Payment.set_status_clear_gateway "CANCELLED") σ)),
     inr (Order.set_order_status "CANCELLED"
            (Order.set_payment_status "CANCELLED" o))).
Proof.
  intros Hfind Hpaid Hcur.
  assert (Hok : isInvalidTransition (Order.order_status o) "CANCELLED" = false).
  { apply not_true_false. by rewrite isInvalidTransition_CANCELLED. }
  unfold UpdateOrderStatus, transaction.
  rewrite (UpdateOrderStatus_body_checked id "CANCELLED" σ o) by done.
  by rewrite switchStatus_CANCELLED, Hpaid.
Qed.


(** C5. The stock restoration of a cancelled PAID order does not keep
    [in_stock == (stock > 0)].  Seclo is sold out by a paid order of its
    two units, with [in_stock] false as order creation left it; after
    the order is cancelled its stock is 2 again and [in_stock] is still
    false. *)
Theorem cancelled_paid_order_in_stock_stale :
  catalogue_consistent
    (Sample.shop_with (Sample.seclo_order "online" "PLACED" "PAID")
                      (Sample.seclo_payment "PAID")) = true
  ∧ (λ p, (Product.stock p, Product.in_stock p))
      <$> products
            (UpdateOrderStatus "0" "CANCELLED"
               (Sample.shop_with
                  (Sample.seclo_order "online" "PLACED" "PAID")
                  (Sample.seclo_payment "PAID"))).1 !! "p2"
    = Some (2, false)
  ∧ catalogue_consistent
      (UpdateOrderStatus "0" "CANCELLED"
         (Sample.shop_with (Sample.seclo_order "online" "PLACED" "PAID")
                           (Sample.seclo_payment "PAID"))).1 = false.
Proof. split; [|split]; by vm_compute. Qed.

(** ** The theorems at work on the sample shop *)


Lemma sample_SHIPPED_back_to_PLACED :
  orders (Sample.shop_with
            (Sample.seclo_order "cash_on_delivery" "SHIPPED" "PENDING")
            (Sample.seclo_payment "PENDING")) !! "0"
  = Some (Sample.seclo_order "cash_on_delivery" "SHIPPED" "PENDING")
  ∧ UpdateOrderStatus "0" "PLACED"
      (Sample.shop_with
         (Sample.seclo_order "cash_on_delivery" "SHIPPED" "PENDING")
         (Sample.seclo_payment "PENDING"))
    = (Sample.shop_with
         (Sample.seclo_order "cash_on_delivery" "SHIPPED" "PENDING")
         (Sample.seclo_payment "PENDING"),
       throw BAD_REQUEST (invalidStatusChange "SHIPPED" "PLACED")).
Proof.
  assert (Hfind :
    orders (Sample.shop_with
              (Sample.seclo_order "cash_on_delivery" "SHIPPED" "PENDING")
              (Sample.seclo_payment "PENDING")) !! "0"
    = Some (Sample.seclo_order "cash_on_delivery" "SHIPPED" "PENDING"))
    by (vm_compute; reflexivity).
  split; [exact Hfind|].
  destruct (UpdateOrderStatus_SHIPPED_table "0" _ _ Hfind) as [_ Hback].
  apply Hback; [reflexivity|left; reflexivity].
Defined.

Lemma sample_insufficient_stock :
  ∃ e,
    CreateOrder Sample.upload Sample.schema Sample.uuids
      (Sample.request [OrderItem.mk "p1" 6] "cash_on_delivery")
      None Sample.alice_token Sample.shop
    = (Sample.shop, inl e)
    ∧ statusCode e = BAD_REQUEST.
Proof.
  assert (Hline :
    OrderItem.mk "p1" 6
      ∈ Payload.products
          (Sample.request [OrderItem.mk "p1" 6] "cash_on_delivery"))
    by left.
  assert (Hproduct :
    products Sample.shop !! OrderItem.product_id (OrderItem.mk "p1" 6)
    = Some Sample.napa) by (vm_compute; reflexivity).
  assert (Hshort :
    Product.stock Sample.napa < OrderItem.quantity (OrderItem.mk "p1" 6))
    by reflexivity.
  destruct (CreateOrder_insufficient_stock Sample.upload Sample.schema
              Sample.uuids _ None Sample.alice_token Sample.shop _ _
              Hline Hproduct Hshort) as (e & Hrun & Hbad & _).
  exists e. split; [exact Hrun|].
  apply Hbad. vm_compute. eexists. reflexivity.
Defined.

Lemma sample_prescription_order :
  ∃ σ' oid o,
    CreateOrder Sample.upload Sample.schema Sample.uuids
      (Sample.request [OrderItem.mk "p3" 1] "cash_on_delivery")
      (Some Sample.scan) Sample.alice_token Sample.shop
    = (σ', inr (oid, o))
    ∧ Order.prescription o
      = Some "https://cdn.example/medimart/prescriptions/3F2A9C".
Proof.
  assert (Hline :
    OrderItem.mk "p3" 1
      ∈ Payload.products
          (Sample.request [OrderItem.mk "p3" 1] "cash_on_delivery"))
    by left.
  assert (Hproduct :
    products Sample.shop !! OrderItem.product_id (OrderItem.mk "p3" 1)
    = Some Sample.amoxicillin) by (vm_compute; reflexivity).
  assert (Hrx : Product.requires_prescription Sample.amoxicillin = true)
    by reflexivity.
  destruct (CreateOrder_prescription Sample.upload Sample.schema
              Sample.uuids _ (Some Sample.scan) Sample.alice_token
              Sample.shop _ _ Hline Hproduct Hrx) as [_ Hok].
  destruct (Hok Sample.scan eq_refl) as (σ' & oid & o & Hrun & _ & Hid & Hp).
  - vm_compute. eexists. reflexivity.
  - apply NoDup_singleton.
  - intros i Hi. apply list_elem_of_singleton in Hi. subst i.
    exists Sample.amoxicillin.
    split; [vm_compute; reflexivity|]. split; [reflexivity|].
    vm_compute. discriminate.
  - exists σ', oid, o. split; [exact Hrun|].
    rewrite Hp, Hid. vm_compute. reflexivity.
Defined.

Lemma sample_product_not_found :
  ∃ e,
    CreateOrder Sample.upload Sample.schema Sample.uuids
      (Sample.request [OrderItem.mk "p1" 1; OrderItem.mk "p9" 1]
                      "cash_on_delivery")
      None Sample.alice_token Sample.shop
    = (Sample.shop, inl e)
    ∧ e = mkAppError BAD_REQUEST "Product not found".
Proof.
  assert (Hline :
    OrderItem.mk "p9" 1
      ∈ Payload.products
          (Sample.request [OrderItem.mk "p1" 1; OrderItem.mk "p9" 1]
                          "cash_on_delivery"))
    by (right; left).
  assert (Hmissing :
    ¬ ∃ p, products Sample.shop !! OrderItem.product_id (OrderItem.mk "p9" 1)
             = Some p
           ∧ Product.is_deleted p = false).
  { intros (p & Hp & _). vm_compute in Hp. discriminate. }
  destruct (CreateOrder_product_not_found Sample.upload Sample.schema
              Sample.uuids _ None Sample.alice_token Sample.shop _
              Hline Hmissing) as (e & Hrun & _ & Hbad & _).
  exists e. split; [exact Hrun|].
  apply Hbad. vm_compute. eexists. reflexivity.
Defined.

Lemma sample_delivered_cash_on_delivery :
  (UpdateOrderStatus "0" "DELIVERED"
     (Sample.shop_with
        (Sample.seclo_order "cash_on_delivery" "SHIPPED" "PENDING")
        (Sample.seclo_payment "PENDING"))).2
  = inr (Sample.seclo_order "cash_on_delivery" "DELIVERED" "PAID")
  ∧ Order.payment_status
      (Sample.seclo_order "cash_on_delivery" "DELIVERED" "PAID") = "PAID".
Proof.
  assert (Hfind :
    orders (Sample.shop_with
              (Sample.seclo_order "cash_on_delivery" "SHIPPED" "PENDING")
              (Sample.seclo_payment "PENDING")) !! "0"
    = Some (Sample.seclo_order "cash_on_delivery" "SHIPPED" "PENDING"))
    by (vm_compute; reflexivity).
  assert (Hrun :
    UpdateOrderStatus "0" "DELIVERED"
      (Sample.shop_with
         (Sample.seclo_order "cash_on_delivery" "SHIPPED" "PENDING")
         (Sample.seclo_payment "PENDING"))
    = ((UpdateOrderStatus "0" "DELIVERED"
          (Sample.shop_with
             (Sample.seclo_order "cash_on_delivery" "SHIPPED" "PENDING")
             (Sample.seclo_payment "PENDING"))).1,
       inr (Sample.seclo_order "cash_on_delivery" "DELIVERED" "PAID")))
    by (vm_compute; reflexivity).
  destruct (UpdateOrderStatus_DELIVERED_cash_on_delivery "0" _ _ _ _
              Hfind eq_refl Hrun) as (Hpaid & _).
  split; [|exact Hpaid]. rewrite Hrun. reflexivity.
Defined.

Lemma sample_cancel_unpaid_order :
  (UpdateOrderStatus "0" "CANCELLED"
     (Sample.shop_with
        (Sample.seclo_order "cash_on_delivery" "PLACED" "PENDING")
        (Sample.seclo_payment "PENDING"))).2
  = inr (Sample.seclo_order "cash_on_delivery" "CANCELLED" "PENDING")
  ∧ products
      (UpdateOrderStatus "0" "CANCELLED"
         (Sample.shop_with
            (Sample.seclo_order "cash_on_delivery" "PLACED" "PENDING")
            (Sample.seclo_payment "PENDING"))).1
    = products
        (Sample.shop_with
           (Sample.seclo_order "cash_on_delivery" "PLACED" "PENDING")
           (Sample.seclo_payment "PENDING"))
  ∧ payments
      (UpdateOrderStatus "0" "CANCELLED"
         (Sample.shop_with
            (Sample.seclo_order "cash_on_delivery" "PLACED" "PENDING")
            (Sample.seclo_payment "PENDING"))).1
    = [Sample.seclo_payment "PENDING"].
Proof.
  assert (Hfind :
    orders (Sample.shop_with
              (Sample.seclo_order "cash_on_delivery" "PLACED" "PENDING")
              (Sample.seclo_payment "PENDING")) !! "0"
    = Some (Sample.seclo_order "cash_on_delivery" "PLACED" "PENDING"))
    by (vm_compute; reflexivity).
  assert (Hunpaid :
    Order.payment_status
      (Sample.seclo_order "cash_on_delivery" "PLACED" "PENDING") ≠ "PAID")
    by (vm_compute; discriminate).
  assert (Hrun :
    UpdateOrderStatus "0" "CANCELLED"
      (Sample.shop_with
         (Sample.seclo_order "cash_on_delivery" "PLACED" "PENDING")
         (Sample.seclo_payment "PENDING"))
    = ((UpdateOrderStatus "0" "CANCELLED"
          (Sample.shop_with
             (Sample.seclo_order "cash_on_delivery" "PLACED" "PENDING")
             (Sample.seclo_payment "PENDING"))).1,
       inr (Sample.seclo_order "cash_on_delivery" "CANCELLED" "PENDING")))
    by (vm_compute; reflexivity).
  destruct (UpdateOrderStatus_CANCELLED_unpaid "0" _ _ _ _ Hfind Hunpaid Hrun)
    as (_ & _ & _ & Hpay & Hprod & _).
  split; [by rewrite Hrun|]. split; [exact Hprod|exact Hpay].
Defined.

(** * Further properties of the order module *)

(** ** Strings *)




(** A string that is alphanumeric already loses nothing. *)
Lemma strip_non_alphanumeric_id (s : string) :
  string_forallb alphanumeric s = true →
  OrderUtils.strip_non_alphanumeric s = s.
Proof.
  induction s as [|c s IH]; [done|]. cbn [string_forallb].
  intros [Hc Hs]%andb_true_iff. cbn [OrderUtils.strip_non_alphanumeric].
  unfold alphanumeric in Hc. by rewrite Hc, IH.
Qed.







(** ** More on the discounted price *)

Lemma clamp_le (x bound : Q) :
  0 <= bound → x <= bound → (if num_lt x 0 then 0 else x) <= bound.
Proof. intros Hb Hx. by destruct (num_lt x 0). Qed.

(** X4. A discount never raises a price: for a price and a discount
    that are not negative, the discounted price is at most the price,
    whatever the discount type. *)
Theorem calculateDiscountedPrice_le_price
    (price discount : Q) (discountType : string)
    (Hprice : 0 <= price) (Hdiscount : 0 <= discount) :
  OrderUtils.calculateDiscountedPrice price discount discountType <= price.
Proof.
  unfold OrderUtils.calculateDiscountedPrice.
  apply clamp_le; [done|].
  destruct (num_truthy discount && str_truthy discountType);
    [|apply Qle_refl].
  destruct (String.eqb discountType "PERCENTAGE").
  - assert (0 <= price * discount / 100).
    { apply Qle_shift_div_l; [reflexivity|].
      rewrite Qmult_0_l. by apply Qmult_le_0_compat. }
    lra.
  - destruct (String.eqb discountType "FLAT"); [lra|apply Qle_refl].
Qed.

Lemma sample_discount_below_price :
  OrderUtils.calculateDiscountedPrice 100 20 "PERCENTAGE" <= 100.
Proof.
  apply calculateDiscountedPrice_le_price; vm_compute; discriminate.
Defined.

(** X5. The discount only counts under the two known types: with any
    other discount type, the empty one included, the result is the
    price itself, clamped below at zero. *)
Theorem calculateDiscountedPrice_unknown_type
    (price discount : Q) (discountType : string)
    (Hpercentage : discountType ≠ "PERCENTAGE")
    (Hflat : discountType ≠ "FLAT") :
  OrderUtils.calculateDiscountedPrice price discount discountType
  = (if num_lt price 0 then 0 else price).
Proof.
  unfold OrderUtils.calculateDiscountedPrice.
  apply String.eqb_neq in Hpercentage, Hflat.
  rewrite Hpercentage, Hflat.
  by destruct (num_truthy discount && str_truthy discountType).
Qed.

Lemma sample_unknown_discount_type :
  OrderUtils.calculateDiscountedPrice 100 20 "percent" = 100.
Proof.
  rewrite calculateDiscountedPrice_unknown_type; [reflexivity| |];
    vm_compute; discriminate.
Defined.

(** ** More on order creation *)

(** The remaining fields of a created order. *)
Lemma CreateOrder_document
    (uploadToCloudinary : FileInterface.t → string → string → string)
    (schema : SchemaDefaults) (uuids : Uuids) (payload : Payload.t)
    (file : option FileInterface.t) (user : JwtPayload.t)
    (σ σ' : Store) (oid : string) (o : Order.t) :
  CreateOrder uploadToCloudinary schema uuids payload file user σ
  = (σ', inr (oid, o)) →
  ∃ requestedUser,
    User_findOne (JwtPayload.email user) σ = Some requestedUser
    ∧ Order.customer_id o = User._id requestedUser
    ∧ Order.transaction_id o
      = OrderUtils.generateTransactionId (transaction_uuid uuids)
    ∧ Order.payment_method o = Payload.payment_method payload
    ∧ users σ' = users σ.
Proof.
  intros Hcreated. apply transaction_inr in Hcreated.
  unfold CreateOrder_body in Hcreated.
  destruct (User_findOne _ σ) as [requestedUser|]; [|discriminate].
  destruct (negb _); [discriminate|].
  exists requestedUser.
  destruct (existsb _ _); [destruct file|]; cbn in Hcreated;
    try discriminate;
    destruct (mapRequestedProducts _ _ _ _) as [e|[[sub ups] lines]];
    try discriminate; cbn in Hcreated; inversion Hcreated; subst;
    clear Hcreated; repeat split; try done;
    unfold Payment_create, with_payments; cbn [users];
    by rewrite applyStockUpdates_users.
Qed.

(** Each line of a created order, with the product and the request
    line it comes from and the write it causes. *)
Lemma CreateOrder_line
    (uploadToCloudinary : FileInterface.t → string → string → string)
    (schema : SchemaDefaults) (uuids : Uuids) (payload : Payload.t)
    (file : option FileInterface.t) (user : JwtPayload.t)
    (σ σ' : Store) (oid : string) (o : Order.t) (line : OrderItems.t) :
  CreateOrder uploadToCloudinary schema uuids payload file user σ
  = (σ', inr (oid, o)) →
  line ∈ Order.products o →
  ∃ p item,
    products σ !! OrderItems.product_id line = Some p
    ∧ Product.is_deleted p = false
    ∧ item ∈ Payload.products payload
    ∧ OrderItem.product_id item = OrderItems.product_id line
    ∧ line = snapshot (OrderItems.product_id line) p item
    ∧ OrderItem.quantity item <= Product.stock p
    ∧ products σ' !! OrderItems.product_id line
      = Some (Product.set_stock_and_flag
                (Product.stock p - OrderItem.quantity item)
                (num_gt (Product.stock p - OrderItem.quantity item) 0) p).
Proof.
  intros Hcreated Hline.
  apply transaction_inr, CreateOrder_body_inr in Hcreated
    as (u & sub & ups & _ & _ & Hloop & _ & _ & _ & _ & _ & _ & _ & _ & Hσ').
  apply mapRequestedProducts_inr in Hloop
    as (_ & Hids & new & Hups & Hnew & Hall & Hlines).
  rewrite app_nil_l in Hups. subst ups σ'.
  apply list_elem_of_lookup in Hline as [i Hi].
  destruct (Forall2_lookup_r _ _ _ _ _ Hlines Hi)
    as ([pid p] & Hkp & item & Hfind & Hsnap).
  destruct (Forall2_lookup_l _ _ _ _ _ Hall Hkp)
    as (upd & Hupd & item' & Hfind' & Hle & Hu).
  cbn [fst snd] in *. rewrite Hfind in Hfind'. inversion Hfind'; subst item'.
  assert (Hpid : OrderItems.product_id line = pid) by by rewrite Hsnap.
  apply list_elem_of_lookup_2 in Hkp as Hfound.
  apply elem_of_Product_find in Hfound as (Hp & _ & Hdel).
  apply find_orderItem_Some in Hfind as [Hitem Hitem_id].
  exists p, item. rewrite Hpid.
  repeat split; try done.
  unfold Payment_create, with_payments; cbn [products].
  assert (Hupd_id : productId upd = pid) by by rewrite Hu.
  rewrite <- Hupd_id.
  rewrite (applyStockUpdates_lookup new _ upd p).
  - by rewrite Hu.
  - rewrite Hnew. apply NoDup_Product_find.
  - by apply list_elem_of_lookup_2 in Hupd.
  - by rewrite Hupd_id.
Qed.



(** X7. The lines of a created order are snapshots: their product ids
    are the product ids of the request, each once, and each line copies
    the name, price, dosage, discount, discount type and prescription
    flag of its product as stored, which is not deleted, and the
    quantity of the request line that names it. *)
Theorem CreateOrder_lines_snapshot
    (uploadToCloudinary : FileInterface.t → string → string → string)
    (schema : SchemaDefaults) (uuids : Uuids) (payload : Payload.t)
    (file : option FileInterface.t) (user : JwtPayload.t)
    (σ σ' : Store) (oid : string) (o : Order.t)
    (Hcreated :
       CreateOrder uploadToCloudinary schema uuids payload file user σ
       = (σ', inr (oid, o))) :
  map OrderItems.product_id (Order.products o)
    ≡ₚ map OrderItem.product_id (Payload.products payload)
  ∧ NoDup (map OrderItem.product_id (Payload.products payload))
  ∧ ∀ line, line ∈ Order.products o →
      ∃ p item,
        products σ !! OrderItems.product_id line = Some p
        ∧ Product.is_deleted p = false
        ∧ item ∈ Payload.products payload
        ∧ line = OrderItems.mk (OrderItem.product_id item) (Product.name p)
                   (Product.price p) (Product.dosage p) (Product.discount p)
                   (Product.discount_type p) (OrderItem.quantity item)
                   (Product.requires_prescription p).
Proof.
  assert (Hperm :
    map OrderItems.product_id (Order.products o)
    ≡ₚ map OrderItem.product_id (Payload.products payload)).
  { apply transaction_inr, CreateOrder_body_inr in Hcreated
      as (u & sub & ups & _ & Hlen & Hloop & _).
    apply mapRequestedProducts_inr in Hloop as (_ & Hids & _).
    rewrite Hids. by apply Product_find_full. }
  split; [done|]. split.
  - rewrite <- Hperm. by eapply CreateOrder_lines_NoDup.
  - intros line Hline.
    destruct (CreateOrder_line _ _ _ _ _ _ _ _ _ _ line Hcreated Hline)
      as (p & item & Hp & Hdel & Hitem & Hid & Hsnap & _).
    exists p, item. repeat split; try done.
    rewrite Hid. exact Hsnap.
Qed.

(** X8. Order creation adds exactly one payment, after those already
    there: it names the new order by its [_id], its amount is the grand
    total of the order, and it carries the transaction id stored on the
    order, which is the one generated for this call. *)
Theorem CreateOrder_one_payment
    (uploadToCloudinary : FileInterface.t → string → string → string)
    (schema : SchemaDefaults) (uuids : Uuids) (payload : Payload.t)
    (file : option FileInterface.t) (user : JwtPayload.t)
    (σ σ' : Store) (oid : string) (o : Order.t)
    (Hcreated :
       CreateOrder uploadToCloudinary schema uuids payload file user σ
       = (σ', inr (oid, o))) :
  ∃ pay,
    payments σ' = (payments σ ++ [pay])%list
    ∧ Payment.order_id pay = oid
    ∧ Payment.amount pay = Order.grand_total o
    ∧ Payment.transaction_id pay = Order.transaction_id o
    ∧ Order.transaction_id o
      = OrderUtils.generateTransactionId (transaction_uuid uuids).
Proof.
  destruct (CreateOrder_document _ _ _ _ _ _ _ _ _ _ Hcreated)
    as (u & _ & _ & Htrx & _).
  eexists. split; [by eapply CreateOrder_payment|]. by repeat split.
Qed.

(** X9. Order creation never touches an order that is already stored:
    the new order goes under an [_id] that held nothing, every other
    order is as it was, and so are the users. *)
Theorem CreateOrder_keeps_orders
    (uploadToCloudinary : FileInterface.t → string → string → string)
    (schema : SchemaDefaults) (uuids : Uuids) (payload : Payload.t)
    (file : option FileInterface.t) (user : JwtPayload.t)
    (σ σ' : Store) (oid : string) (o : Order.t)
    (Hcreated :
       CreateOrder uploadToCloudinary schema uuids payload file user σ
       = (σ', inr (oid, o))) :
  orders σ !! oid = None
  ∧ (∀ k old, orders σ !! k = Some old → orders σ' !! k = Some old)
  ∧ dom (orders σ') = {[oid]} ∪ dom (orders σ)
  ∧ users σ' = users σ.
Proof.
  destruct (CreateOrder_stored _ _ _ _ _ _ _ _ _ _ Hcreated)
    as [Hfresh Hstored].
  destruct (CreateOrder_document _ _ _ _ _ _ _ _ _ _ Hcreated)
    as (u & _ & _ & _ & _ & Husers).
  split; [done|]. split; [|split; [|done]].
  - intros k old Hold. rewrite Hstored.
    rewrite lookup_insert_ne; [done|]. intros ->. congruence.
  - rewrite Hstored. apply dom_insert_L.
Qed.

(** X10. A request that names the same product on two lines is turned
    down, even when the product exists and is in stock: for a resolved
    user the error is BadRequest, "Product not found", and nothing is
    written. *)
Theorem CreateOrder_repeated_product
    (uploadToCloudinary : FileInterface.t → string → string → string)
    (schema : SchemaDefaults) (uuids : Uuids) (payload : Payload.t)
    (file : option FileInterface.t) (user : JwtPayload.t) (σ : Store)
    (requestedUser : User.t)
    (Huser : User_findOne (JwtPayload.email user) σ = Some requestedUser)
    (Hrepeated :
       ¬ NoDup (map OrderItem.product_id (Payload.products payload))) :
  CreateOrder uploadToCloudinary schema uuids payload file user σ
  = (σ, throw BAD_REQUEST "Product not found").
Proof.
  unfold CreateOrder. apply transaction_inl.
  apply (CreateOrder_body_not_found _ _ _ _ _ _ _ requestedUser Huser).
  intros Hlen. apply Hrepeated.
  rewrite <- (Product_find_full _ σ Hlen). apply NoDup_Product_find.
Qed.

Lemma Product_find_nil (σ : Store) : Product_find [] σ = [].
Proof.
  apply length_zero_iff_nil.
  pose proof (submseteq_length _ _ (Product_find_submseteq [] σ)) as Hle.
  rewrite length_fmap in Hle. simpl in Hle. lia.
Qed.

(** X11. A request with no line at all is accepted from a resolved
    user: an order with no lines is stored, with subtotal 0, delivery
    charge 50 and grand total 50, no prescription is asked for, and no
    product is written. *)
Theorem CreateOrder_no_lines
    (uploadToCloudinary : FileInterface.t → string → string → string)
    (schema : SchemaDefaults) (uuids : Uuids) (payload : Payload.t)
    (file : option FileInterface.t) (user : JwtPayload.t) (σ : Store)
    (requestedUser : User.t)
    (Huser : User_findOne (JwtPayload.email user) σ = Some requestedUser)
    (Hempty : Payload.products payload = []) :
  ∃ σ' oid o,
    CreateOrder uploadToCloudinary schema uuids payload file user σ
    = (σ', inr (oid, o))
    ∧ Order.products o = []
    ∧ Order.prescription o = None
    ∧ Order.subtotal o = 0
    ∧ Order.delivery_charge o = 50
    ∧ Order.grand_total o = 0 + 50
    ∧ products σ' = products σ.
Proof.
  unfold CreateOrder, transaction, CreateOrder_body.
  rewrite Huser, Hempty. cbn [map]. rewrite Product_find_nil.
  cbn. by eexists _, _, _.
Qed.

Lemma foldl_lineTotal_nonneg (lines : list OrderItems.t) (acc : Q) :
  0 <= acc →
  (∀ line, line ∈ lines → 0 <= OrderItems.quantity line) →
  0 <= foldl (λ acc line, acc + lineTotal line) acc lines.
Proof.
  revert acc. induction lines as [|l lines IH]; intros acc Hacc Hq;
    cbn [foldl]; [done|].
  apply IH.
  - assert (0 <= lineTotal l).
    { unfold lineTotal. apply Qmult_le_0_compat.
      - apply calculateDiscountedPrice_nonneg.
      - apply Hq. left. }
    lra.
  - intros line Hline. apply Hq. by right.
Qed.

(** X12. When no quantity of the request is negative, the subtotal of
    the created order is not negative and its grand total is at least
    the delivery charge of 50. *)
Theorem CreateOrder_grand_total_floor
    (uploadToCloudinary : FileInterface.t → string → string → string)
    (schema : SchemaDefaults) (uuids : Uuids) (payload : Payload.t)
    (file : option FileInterface.t) (user : JwtPayload.t)
    (σ σ' : Store) (oid : string) (o : Order.t)
    (Hcreated :
       CreateOrder uploadToCloudinary schema uuids payload file user σ
       = (σ', inr (oid, o)))
    (Hquantities :
       ∀ item, item ∈ Payload.products payload →
               0 <= OrderItem.quantity item) :
  0 <= Order.subtotal o ∧ 50 <= Order.grand_total o.
Proof.
  assert (Hsub : 0 <= Order.subtotal o).
  { pose proof Hcreated as Hrun.
    apply transaction_inr, CreateOrder_body_inr in Hrun
      as (u & sub & ups & _ & _ & Hloop & Hsub & _).
    apply mapRequestedProducts_inr in Hloop as (Hsum & _).
    rewrite Hsub, Hsum. apply foldl_lineTotal_nonneg; [apply Qle_refl|].
    intros line Hline.
    destruct (CreateOrder_line _ _ _ _ _ _ _ _ _ _ line Hcreated Hline)
      as (p & item & _ & _ & Hitem & _ & Hsnap & _).
    rewrite Hsnap. cbn. by apply Hquantities. }
  split; [done|].
  apply transaction_inr, CreateOrder_body_inr in Hcreated
    as (u & sub & ups & _ & _ & _ & Hsub' & Hdel & Htot & _).
  rewrite Htot, Hdel. subst sub.
  destruct (num_gt (Order.subtotal o) 1000) eqn:Hgt.
  - apply num_lt_true in Hgt. lra.
  - lra.
Qed.

(** ** More on status updates *)

Lemma includes_true (arr : list string) (x : string) :
  includes arr x = true ↔ x ∈ arr.
Proof.
  unfold includes. rewrite existsb_exists. split.
  - intros (y & Hin & Heq). apply String.eqb_eq in Heq. subst y.
    by apply list_elem_of_In.
  - intros Hin. exists x. split; [by apply list_elem_of_In|].
    apply String.eqb_refl.
Qed.

(** X13. An id that names no order is answered NotFound, before the
    requested status is looked at, and nothing is written. *)
Theorem UpdateOrderStatus_unknown_order (id status : string) (σ : Store)
    (Hmissing : orders σ !! id = None) :
  UpdateOrderStatus id status σ = (σ, throw NOT_FOUND "Order not found").
Proof.
  unfold UpdateOrderStatus. apply transaction_inl.
  unfold UpdateOrderStatus_body, Order_findById. by rewrite Hmissing.
Qed.

(** X14. For a stored order, a requested status outside the five order
    states is answered BadRequest, "Invalid order status", whatever
    state the order is in, and nothing is written. *)
Theorem UpdateOrderStatus_invalid_status (id status : string) (σ : Store)
    (o : Order.t)
    (Hfind : orders σ !! id = Some o)
    (Hstatus : status ∉ OrderConstants.OrderStatus) :
  UpdateOrderStatus id status σ
  = (σ, throw BAD_REQUEST "Invalid order status").
Proof.
  unfold UpdateOrderStatus. apply transaction_inl.
  unfold UpdateOrderStatus_body, Order_findById. rewrite Hfind.
  assert (Hin : includes OrderConstants.OrderStatus status = false).
  { apply not_true_false. by rewrite includes_true. }
  by rewrite Hin.
Qed.

Lemma restock_dom (lines : list OrderItems.t) (σ : Store) :
  dom (products (restock lines σ)) = dom (products σ).
Proof.
  revert σ. induction lines as [|l ls IH]; intros σ; cbn [restock foldl];
    [done|].
  change (foldl _ ?s ls) with (restock ls s). rewrite IH.
  unfold Product_updateOne, with_products; cbn [products].
  apply dom_alter_L.
Qed.

(** What the [switch] may change: the payment status of the order, and
    for CANCELLED one payment and the stock of the products. *)
Lemma switchStatus_inr (id status : string) (o o1 : Order.t) (σ σ1 : Store) :
  switchStatus id status o σ = inr (σ1, o1) →
  users σ1 = users σ
  ∧ orders σ1 = orders σ
  ∧ length (payments σ1) = length (payments σ)
  ∧ dom (products σ1) = dom (products σ)
  ∧ (status ≠ "CANCELLED" → σ1 = σ)
  ∧ (∃ s, o1 = Order.set_payment_status s o).
Proof.
  assert (Hid : o = Order.set_payment_status (Order.payment_status o) o)
    by by destruct o.
  unfold switchStatus.
  destruct (String.eqb_spec status "CONFIRMED") as [->|_].
  { destruct (_ && _); [discriminate|]. intros [= <- <-].
    repeat split; try done. by eexists. }
  destruct (String.eqb_spec status "SHIPPED") as [->|_].
  { destruct (_ && _); [discriminate|]. intros [= <- <-].
    repeat split; try done. by eexists. }
  destruct (String.eqb_spec status "DELIVERED") as [->|_].
  { destruct (String.eqb _ _); intros [= <- <-]; repeat split; try done;
      by eexists. }
  destruct (String.eqb_spec status "CANCELLED") as [->|_].
  { destruct (String.eqb _ _); intros [= <- <-].
    - split; [by rewrite restock_users|].
      split; [by rewrite restock_orders|].
      split; [rewrite restock_payments; apply update_first_length|].
      split; [by rewrite restock_dom|].
      split; [done|]. by eexists.
    - repeat split; try done. by eexists. }
  intros [= <- <-]. repeat split; try done. by eexists.
Qed.

(** Every successful update, taken apart. *)
Lemma UpdateOrderStatus_inr (id status : string) (σ σ' : Store)
    (o' : Order.t) :
  UpdateOrderStatus id status σ = (σ', inr o') →
  ∃ o σ1 o1,
    orders σ !! id = Some o
    ∧ includes OrderConstants.OrderStatus status = true
    ∧ isInvalidTransition (Order.order_status o) status = false
    ∧ switchStatus id status o σ = inr (σ1, o1)
    ∧ o' = Order.set_order_status status o1
    ∧ σ' = Order_save id o' σ1.
Proof.
  intros Hrun. apply transaction_inr in Hrun.
  unfold UpdateOrderStatus_body, Order_findById in Hrun.
  destruct (orders σ !! id) as [o|] eqn:Hfind; [|discriminate].
  destruct (includes _ status) eqn:Hin; [|discriminate].
  destruct (isInvalidTransition _ status) eqn:Hok; [discriminate|].
  destruct (switchStatus id status o σ) as [e|[σ1 o1]] eqn:Hswitch;
    [discriminate|].
  inversion Hrun; subst. by exists o, σ1, o1.
Qed.

(** X15. A status update never rewrites what was ordered: the order it
    saves has the requested status and the same order id, customer,
    lines, prescription, subtotal, delivery charge, grand total and
    transaction id as before. *)
Theorem UpdateOrderStatus_keeps_order_content
    (id status : string) (σ σ' : Store) (o o' : Order.t)
    (Hfind : orders σ !! id = Some o)
    (Hsuccess : UpdateOrderStatus id status σ = (σ', inr o')) :
  orders σ' !! id = Some o'
  ∧ Order.order_status o' = status
  ∧ Order.order_id o' = Order.order_id o
  ∧ Order.customer_id o' = Order.customer_id o
  ∧ Order.products o' = Order.products o
  ∧ Order.prescription o' = Order.prescription o
  ∧ Order.subtotal o' = Order.subtotal o
  ∧ Order.delivery_charge o' = Order.delivery_charge o
  ∧ Order.grand_total o' = Order.grand_total o
  ∧ Order.transaction_id o' = Order.transaction_id o.
Proof.
  apply UpdateOrderStatus_inr in Hsuccess
    as (o0 & σ1 & o1 & Hfind' & _ & _ & Hswitch & -> & ->).
  rewrite Hfind in Hfind'. inversion Hfind'; subst o0.
  apply switchStatus_inr in Hswitch as (_ & _ & _ & _ & _ & s & ->).
  split; [|by repeat split].
  unfold Order_save, with_orders; cbn [orders]. apply lookup_insert_eq.
Qed.

(** X16. A status update neither adds nor removes a document: the
    users are as they were, the same order ids, product ids and number
    of payments are stored, and every order but the one updated is
    untouched; unless the target is CANCELLED, the products and the
    payments are exactly as they were. *)
Theorem UpdateOrderStatus_frame
    (id status : string) (σ σ' : Store) (o' : Order.t)
    (Hsuccess : UpdateOrderStatus id status σ = (σ', inr o')) :
  users σ' = users σ
  ∧ dom (orders σ') = dom (orders σ)
  ∧ (∀ k, k ≠ id → orders σ' !! k = orders σ !! k)
  ∧ dom (products σ') = dom (products σ)
  ∧ length (payments σ') = length (payments σ)
  ∧ (status ≠ "CANCELLED" →
     products σ' = products σ ∧ payments σ' = payments σ).
Proof.
  apply UpdateOrderStatus_inr in Hsuccess
    as (o & σ1 & o1 & Hfind & _ & _ & Hswitch & -> & ->).
  apply switchStatus_inr in Hswitch
    as (Husers & Horders & Hpay & Hdom & Hsame & _).
  unfold Order_save, with_orders; cbn [users orders products payments].
  split; [done|]. split; [|split; [|split; [done|split; [done|]]]].
  - rewrite Horders, dom_insert_L.
    apply subseteq_union_1_L, singleton_subseteq_l, elem_of_dom.
    by eexists.
  - intros k Hk. rewrite Horders. by apply lookup_insert_ne.
  - intros Hstatus. by rewrite (Hsame Hstatus).
Qed.

(** X17. DELIVERED is final: whatever status is then requested, an
    update that succeeds on a DELIVERED order leaves it DELIVERED, and
    neither a product nor a payment is written; every other one of the
    five states is refused with BadRequest. *)
Theorem UpdateOrderStatus_DELIVERED_final
    (id status : string) (σ : Store) (o : Order.t)
    (Hfind : orders σ !! id = Some o)
    (Hdelivered : Order.order_status o = "DELIVERED") :
  (∀ σ' o', UpdateOrderStatus id status σ = (σ', inr o') →
     Order.order_status o' = "DELIVERED"
     ∧ products σ' = products σ ∧ payments σ' = payments σ)
  ∧ (status ∈ OrderConstants.OrderStatus → status ≠ "DELIVERED" →
     UpdateOrderStatus id status σ
     = (σ, throw BAD_REQUEST (invalidStatusChange "DELIVERED" status))).
Proof.
  assert (Hrefused :
    status ∈ OrderConstants.OrderStatus → status ≠ "DELIVERED" →
    isInvalidTransition "DELIVERED" status = true).
  { intros Hin Hne. unfold OrderConstants.OrderStatus in Hin.
    repeat (apply elem_of_cons in Hin as [->|Hin]); try done.
    by apply elem_of_nil in Hin. }
  split.
  - intros σ' o' Hrun.
    destruct (decide (status = "DELIVERED")) as [->|Hne].
    + apply UpdateOrderStatus_inr in Hrun
        as (o0 & σ1 & o1 & _ & _ & _ & Hswitch & -> & ->).
      apply switchStatus_inr in Hswitch
        as (_ & _ & _ & _ & Hsame & s & ->).
      rewrite Hsame by done. done.
    + apply UpdateOrderStatus_inr in Hrun
        as (o0 & σ1 & o1 & Hfind' & Hin & Hok & _).
      rewrite Hfind in Hfind'. inversion Hfind'; subst o0.
      apply includes_true in Hin.
      rewrite Hdelivered, (Hrefused Hin Hne) in Hok. discriminate.
  - intros Hin Hne. unfold UpdateOrderStatus. apply transaction_inl.
    rewrite (UpdateOrderStatus_body_refused id status σ o Hfind).
    + by rewrite Hdelivered.
    + by apply includes_true.
    + rewrite Hdelivered. by apply Hrefused.
Qed.

(** ** Updates in sequence *)

(** X18. Cancelling twice restocks once: after a PAID order has been
    cancelled, a second cancellation succeeds and changes nothing, so
    the quantities of the order are not added to the stock again. *)
Theorem UpdateOrderStatus_CANCELLED_twice (id : string) (σ : Store)
    (o : Order.t)
    (Hfind : orders σ !! id = Some o)
    (Hpaid : Order.payment_status o = "PAID")
    (Hcancellable : Order.order_status o ≠ "DELIVERED") :
  ∃ σ' o',
    UpdateOrderStatus id "CANCELLED" σ = (σ', inr o')
    ∧ UpdateOrderStatus id "CANCELLED" σ' = (σ', inr o').
Proof.
  eexists _, _. split; [by apply cancel_paid_order_run|].
  rewrite (cancel_unpaid_order_succeeds id _
             (Order.set_order_status "CANCELLED"
                (Order.set_payment_status "CANCELLED" o))).
  - f_equal. unfold Order_save, with_orders. cbn. f_equal.
    apply insert_insert_eq.
  - unfold Order_save, with_orders; cbn [orders]. apply lookup_insert_eq.
  - by vm_compute.
  - by vm_compute.
Qed.

Lemma switchStatus_CONFIRMED (id : string) (o : Order.t) (σ : Store) :
  switchStatus id "CONFIRMED" o σ
  = if existsb OrderItems.requires_prescription (Order.products o)
       && negb (opt_truthy (Order.prescription o))
    then throw BAD_REQUEST "Cannot confirm order without prescription"
    else mret (σ, o).
Proof. reflexivity. Qed.

(** An order created with a line that requires a prescription came
    with a file, and stores what the upload answered for it. *)
Lemma CreateOrder_prescription_stored
    (uploadToCloudinary : FileInterface.t → string → string → string)
    (schema : SchemaDefaults) (uuids : Uuids) (payload : Payload.t)
    (file : option FileInterface.t) (user : JwtPayload.t)
    (σ σ' : Store) (oid : string) (o : Order.t) :
  CreateOrder uploadToCloudinary schema uuids payload file user σ
  = (σ', inr (oid, o)) →
  existsb OrderItems.requires_prescription (Order.products o) = true →
  ∃ f, file = Some f
       ∧ Order.prescription o
         = Some (uploadToCloudinary f (Order.order_id o)
                   "medimart/prescriptions").
Proof.
  intros Hcreated Hrx.
  apply existsb_exists in Hrx as (line & Hline & Hrx).
  apply list_elem_of_In in Hline.
  destruct (CreateOrder_line _ _ _ _ _ _ _ _ _ _ line Hcreated Hline)
    as (p & item & Hp & Hdel & Hitem & Hid & Hsnap & _).
  assert (Hexists :
    existsb (λ kp, Product.requires_prescription kp.2)
      (Product_find
         (map OrderItem.product_id (Payload.products payload)) σ) = true).
  { apply existsb_exists. exists (OrderItems.product_id line, p). split.
    - apply list_elem_of_In, elem_of_Product_find.
      split; [done|]. split; [|done].
      apply list_elem_of_fmap. by exists item.
    - rewrite Hsnap in Hrx. exact Hrx. }
  apply transaction_inr in Hcreated.
  pose proof Hcreated as Hbody.
  apply CreateOrder_body_inr in Hbody
    as (u & sub & ups & Huser & Hlen & _ & _ & _ & _ & Hcode & Hpresc & _).
  destruct file as [f|].
  - exists f. split; [done|]. by rewrite Hpresc, Hexists, Hcode.
  - rewrite (CreateOrder_body_no_prescription _ _ _ _ _ _ _ u Huser Hlen
               Hexists eq_refl) in Hcreated.
    discriminate.
Qed.

(** X19. An order can be confirmed as it was created: when the schema
    starts orders as PLACED and the upload never answers an empty URL,
    the prescription guard of CONFIRMED does not refuse an order that
    [CreateOrder] has just stored, and the update writes the status
    only. *)
Theorem CreateOrder_then_CONFIRMED
    (uploadToCloudinary : FileInterface.t → string → string → string)
    (schema : SchemaDefaults) (uuids : Uuids) (payload : Payload.t)
    (file : option FileInterface.t) (user : JwtPayload.t)
    (σ σ' : Store) (oid : string) (o : Order.t)
    (Hcreated :
       CreateOrder uploadToCloudinary schema uuids payload file user σ
       = (σ', inr (oid, o)))
    (Hplaced : default_order_status schema = "PLACED")
    (Hurl : ∀ f public_id folder,
              uploadToCloudinary f public_id folder ≠ "") :
  UpdateOrderStatus oid "CONFIRMED" σ'
  = (Order_save oid (Order.set_order_status "CONFIRMED" o) σ',
     inr (Order.set_order_status "CONFIRMED" o)).
Proof.
  destruct (CreateOrder_stored _ _ _ _ _ _ _ _ _ _ Hcreated)
    as [_ Hstored].
  assert (Hfind : orders σ' !! oid = Some o)
    by (rewrite Hstored; apply lookup_insert_eq).
  assert (Hstatus : Order.order_status o = "PLACED").
  { apply transaction_inr, CreateOrder_body_inr in Hcreated
      as (u & sub & ups & _ & _ & _ & _ & _ & _ & _ & _ & Hst & _).
    by rewrite Hst. }
  unfold UpdateOrderStatus, transaction.
  rewrite (UpdateOrderStatus_body_checked oid "CONFIRMED" σ' o Hfind eq_refl)
    by by rewrite Hstatus.
  rewrite switchStatus_CONFIRMED.
  destruct (existsb OrderItems.requires_prescription (Order.products o))
    eqn:Hrx; [|done].
  destruct (CreateOrder_prescription_stored _ _ _ _ _ _ _ _ _ _
              Hcreated Hrx) as (f & _ & Hpresc).
  rewrite Hpresc. cbn [opt_truthy]. unfold str_truthy.
  pose proof (Hurl f (Order.order_id o) "medimart/prescriptions") as Hne.
  apply String.eqb_neq in Hne. by rewrite Hne.
Qed.


Lemma catalogue_consistent_true (σ : Store) :
  catalogue_consistent σ = true
  ↔ ∀ pid p, products σ !! pid = Some p → in_stock_consistent p = true.
Proof.
  unfold catalogue_consistent. rewrite forallb_forall. split.
  - intros H pid p Hp. apply (H (pid, p)).
    by apply list_elem_of_In, elem_of_map_to_list.
  - intros H [pid p] Hin. apply (H pid).
    by apply elem_of_map_to_list, list_elem_of_In.
Qed.

(** X23. Order creation keeps the catalogue in step: when every product
    has [in_stock] telling whether its stock is positive before an
    order is created, every product has it so afterwards. *)
Theorem CreateOrder_keeps_catalogue_consistent
    (uploadToCloudinary : FileInterface.t → string → string → string)
    (schema : SchemaDefaults) (uuids : Uuids) (payload : Payload.t)
    (file : option FileInterface.t) (user : JwtPayload.t)
    (σ σ' : Store) (oid : string) (o : Order.t)
    (Hcreated :
       CreateOrder uploadToCloudinary schema uuids payload file user σ
       = (σ', inr (oid, o)))
    (Hconsistent : catalogue_consistent σ = true) :
  catalogue_consistent σ' = true.
Proof.
  rewrite catalogue_consistent_true in Hconsistent.
  apply catalogue_consistent_true. intros pid p' Hp'.
  destruct (CreateOrder_in_stock _ _ _ _ _ _ _ _ _ _ Hcreated pid p' Hp')
    as [Hnamed Hother].
  destruct (decide (pid ∈ map OrderItems.product_id (Order.products o)))
    as [Hin|Hnot].
  - unfold in_stock_consistent. rewrite (Hnamed Hin).
    by destruct (num_gt _ _).
  - by apply (Hconsistent pid), Hother.
Qed.

(** ** Reading an order back *)

Lemma find_is_Some {A : Type} (P : A → bool) (l : list A) (x : A) :
  x ∈ l → P x = true → is_Some (List.find P l).
Proof.
  intros Hin HP. destruct (List.find P l) eqn:E; [by eexists|].
  apply list_elem_of_In in Hin.
  rewrite (find_none P l E x Hin) in HP. discriminate.
Qed.

Lemma Order_findOne_Some (filter : Order.t → bool) (σ : Store) oid o :
  Order_findOne filter σ = Some (oid, o) →
  orders σ !! oid = Some o ∧ filter o = true.
Proof.
  unfold Order_findOne. intros H. apply find_some in H as [Hin Hf].
  split; [|done]. by apply elem_of_map_to_list, list_elem_of_In.
Qed.

Lemma Order_findOne_is_Some (filter : Order.t → bool) (σ : Store) oid o :
  orders σ !! oid = Some o → filter o = true →
  is_Some (Order_findOne filter σ).
Proof.
  intros Ho Hf. unfold Order_findOne.
  apply (find_is_Some _ _ (oid, o)); [|done].
  by apply elem_of_map_to_list.
Qed.

(** X21. [GetMyOrderById] is scoped to the caller: an order it returns
    is stored, has the order id asked for and belongs to the user of
    the token; it answers an order whenever such an order is stored,
    and NotFound when none is, also when the order id exists but under
    another customer. *)
Theorem GetMyOrderById_scoped (id : string) (user : JwtPayload.t)
    (σ : Store) :
  (∀ oid o, GetMyOrderById id user σ = inr (oid, o) →
     orders σ !! oid = Some o
     ∧ Order.order_id o = id
     ∧ Order.customer_id o = JwtPayload._id user)
  ∧ ((∃ oid o, orders σ !! oid = Some o
               ∧ Order.order_id o = id
               ∧ Order.customer_id o = JwtPayload._id user) →
     ∃ oid o, GetMyOrderById id user σ = inr (oid, o))
  ∧ ((∀ oid o, orders σ !! oid = Some o →
               Order.order_id o = id →
               Order.customer_id o ≠ JwtPayload._id user) →
     GetMyOrderById id user σ = throw NOT_FOUND "Order not found").
Proof.
  unfold GetMyOrderById. split; [|split].
  - intros oid o H.
    destruct (Order_findOne _ σ) as [[oid' o']|] eqn:E; [|discriminate].
    inversion H; subst. apply Order_findOne_Some in E as [Ho Hf].
    apply andb_true_iff in Hf as [H1 H2].
    apply String.eqb_eq in H1, H2. done.
  - intros (oid & o & Ho & Hid & Hcust).
    destruct (Order_findOne_is_Some
                (λ o, String.eqb (Order.order_id o) id
                      && String.eqb (Order.customer_id o)
                                    (JwtPayload._id user)) σ oid o Ho)
      as [[oid' o'] E].
    { rewrite Hid, Hcust, !String.eqb_refl. done. }
    rewrite E. by exists oid', o'.
  - intros Hnone.
    destruct (Order_findOne _ σ) as [[oid' o']|] eqn:E; [|done].
    apply Order_findOne_Some in E as [Ho Hf].
    apply andb_true_iff in Hf as [H1 H2].
    apply String.eqb_eq in H1, H2. by destruct (Hnone oid' o' Ho H1).
Qed.

(** X22. A created order can be read back: with a token that carries
    the [_id] of the account the request resolved to, and no earlier
    order of that customer under the same order id, [GetMyOrderById]
    with the order id of the new order returns that order. *)
Theorem CreateOrder_then_GetMyOrderById
    (uploadToCloudinary : FileInterface.t → string → string → string)
    (schema : SchemaDefaults) (uuids : Uuids) (payload : Payload.t)
    (file : option FileInterface.t) (user : JwtPayload.t)
    (σ σ' : Store) (oid : string) (o : Order.t) (requestedUser : User.t)
    (Hcreated :
       CreateOrder uploadToCloudinary schema uuids payload file user σ
       = (σ', inr (oid, o)))
    (Huser : User_findOne (JwtPayload.email user) σ = Some requestedUser)
    (Htoken : JwtPayload._id user = User._id requestedUser)
    (Hcode :
       ∀ k old, orders σ !! k = Some old →
                Order.order_id old = Order.order_id o →
                Order.customer_id old ≠ JwtPayload._id user) :
  GetMyOrderById (Order.order_id o) user σ' = inr (oid, o).
Proof.
  destruct (CreateOrder_stored _ _ _ _ _ _ _ _ _ _ Hcreated)
    as [Hfresh Hstored].
  destruct (CreateOrder_document _ _ _ _ _ _ _ _ _ _ Hcreated)
    as (u & Hu & Hcust & _).
  rewrite Huser in Hu. inversion Hu; subst u.
  assert (Ho : orders σ' !! oid = Some o)
    by (rewrite Hstored; apply lookup_insert_eq).
  unfold GetMyOrderById.
  destruct (Order_findOne_is_Some
              (λ o', String.eqb (Order.order_id o') (Order.order_id o)
                     && String.eqb (Order.customer_id o')
                                   (JwtPayload._id user)) σ' oid o Ho)
    as [[k old] E].
  { rewrite Hcust, Htoken, !String.eqb_refl. done. }
  rewrite E. apply Order_findOne_Some in E as [Hold Hf].
  apply andb_true_iff in Hf as [H1 H2]. apply String.eqb_eq in H1, H2.
  rewrite Hstored in Hold.
  destruct (decide (k = oid)) as [->|Hne].
  - rewrite lookup_insert_eq in Hold. by inversion Hold.
  - rewrite lookup_insert_ne in Hold by done.
    by destruct (Hcode k old Hold H1).
Qed.

(** ** The further properties on the sample shop *)

Lemma seclo_placed :
  CreateOrder Sample.upload Sample.schema Sample.uuids
    Scenario.seclo_request None Sample.alice_token Sample.shop
  = (Scenario.placed_shop, inr ("0", Scenario.placed_order)).
Proof. by vm_compute. Qed.

Lemma alice_resolves :
  User_findOne (JwtPayload.email Sample.alice_token) Sample.shop
  = Some Sample.alice.
Proof. by vm_compute. Qed.

Lemma placed_order_stored :
  orders Scenario.placed_shop !! "0" = Some Scenario.placed_order.
Proof. by vm_compute. Qed.


Lemma sample_lines_snapshot :
  map OrderItems.product_id (Order.products Scenario.placed_order)
  ≡ₚ map OrderItem.product_id (Payload.products Scenario.seclo_request).
Proof.
  exact (proj1 (CreateOrder_lines_snapshot _ _ _ _ _ _ _ _ _ _ seclo_placed)).
Defined.

Lemma sample_one_payment :
  ∃ pay,
    payments Scenario.placed_shop = (payments Sample.shop ++ [pay])%list
    ∧ Payment.order_id pay = "0"
    ∧ Payment.amount pay = Order.grand_total Scenario.placed_order
    ∧ Payment.transaction_id pay = Order.transaction_id Scenario.placed_order
    ∧ Order.transaction_id Scenario.placed_order
      = OrderUtils.generateTransactionId (transaction_uuid Sample.uuids).
Proof. exact (CreateOrder_one_payment _ _ _ _ _ _ _ _ _ _ seclo_placed). Defined.

Lemma sample_keeps_orders : orders Sample.shop !! "0" = None.
Proof.
  exact (proj1 (CreateOrder_keeps_orders _ _ _ _ _ _ _ _ _ _ seclo_placed)).
Defined.

Lemma sample_repeated_product :
  CreateOrder Sample.upload Sample.schema Sample.uuids
    (Sample.request [OrderItem.mk "p1" 1; OrderItem.mk "p1" 1]
                    "cash_on_delivery")
    None Sample.alice_token Sample.shop
  = (Sample.shop, throw BAD_REQUEST "Product not found").
Proof.
  apply (CreateOrder_repeated_product _ _ _ _ _ _ _ _ alice_resolves).
  intros Hnd. apply NoDup_cons in Hnd as [Hnot _]. apply Hnot. left.
Defined.

Lemma sample_no_lines :
  ∃ σ' oid o,
    CreateOrder Sample.upload Sample.schema Sample.uuids
      (Sample.request [] "cash_on_delivery")
      None Sample.alice_token Sample.shop
    = (σ', inr (oid, o))
    ∧ Order.products o = []
    ∧ Order.prescription o = None
    ∧ Order.subtotal o = 0
    ∧ Order.delivery_charge o = 50
    ∧ Order.grand_total o = 0 + 50
    ∧ products σ' = products Sample.shop.
Proof.
  exact (CreateOrder_no_lines Sample.upload Sample.schema Sample.uuids
           (Sample.request [] "cash_on_delivery") None Sample.alice_token
           Sample.shop Sample.alice alice_resolves eq_refl).
Defined.

Lemma sample_grand_total_floor :
  0 <= Order.subtotal Scenario.placed_order
  ∧ 50 <= Order.grand_total Scenario.placed_order.
Proof.
  apply (CreateOrder_grand_total_floor _ _ _ _ _ _ _ _ _ _ seclo_placed).
  intros item Hitem. apply list_elem_of_singleton in Hitem. subst item.
  vm_compute. discriminate.
Defined.

Lemma sample_unknown_order :
  UpdateOrderStatus "7" "SHIPPED" Scenario.placed_shop
  = (Scenario.placed_shop, throw NOT_FOUND "Order not found").
Proof.
  apply UpdateOrderStatus_unknown_order. vm_compute. reflexivity.
Defined.

Lemma sample_invalid_status :
  UpdateOrderStatus "0" "RETURNED" Scenario.placed_shop
  = (Scenario.placed_shop, throw BAD_REQUEST "Invalid order status").
Proof.
  apply (UpdateOrderStatus_invalid_status _ _ _ _ placed_order_stored).
  intros Hin. apply includes_true in Hin. vm_compute in Hin. discriminate.
Defined.

Lemma placed_order_confirmed :
  UpdateOrderStatus "0" "CONFIRMED" Scenario.placed_shop
  = ((UpdateOrderStatus "0" "CONFIRMED" Scenario.placed_shop).1,
     inr (Sample.seclo_order "cash_on_delivery" "CONFIRMED" "PENDING")).
Proof. by vm_compute. Qed.

Lemma sample_keeps_order_content :
  Order.products (Sample.seclo_order "cash_on_delivery" "CONFIRMED" "PENDING")
  = Order.products Scenario.placed_order
  ∧ Order.grand_total
      (Sample.seclo_order "cash_on_delivery" "CONFIRMED" "PENDING")
    = Order.grand_total Scenario.placed_order.
Proof.
  destruct (UpdateOrderStatus_keeps_order_content _ _ _ _ _ _
              placed_order_stored placed_order_confirmed)
    as (_ & _ & _ & _ & Hlines & _ & _ & _ & Htotal & _).
  by split.
Defined.

Lemma sample_status_frame :
  users (UpdateOrderStatus "0" "CONFIRMED" Scenario.placed_shop).1
  = users Scenario.placed_shop
  ∧ dom (orders (UpdateOrderStatus "0" "CONFIRMED" Scenario.placed_shop).1)
    = dom (orders Scenario.placed_shop).
Proof.
  destruct (UpdateOrderStatus_frame _ _ _ _ _ placed_order_confirmed)
    as (Husers & Hdom & _).
  by split.
Defined.

Lemma sample_DELIVERED_final :
  UpdateOrderStatus "0" "CANCELLED" Scenario.delivered_shop
  = (Scenario.delivered_shop,
     throw BAD_REQUEST (invalidStatusChange "DELIVERED" "CANCELLED")).
Proof.
  assert (Hfind :
    orders Scenario.delivered_shop !! "0" = Some Scenario.delivered_order)
    by (vm_compute; reflexivity).
  apply (proj2 (UpdateOrderStatus_DELIVERED_final "0" "CANCELLED" _ _
                  Hfind eq_refl)).
  - apply includes_true. reflexivity.
  - discriminate.
Defined.

Lemma sample_CANCELLED_twice :
  ∃ σ' o',
    UpdateOrderStatus "0" "CANCELLED" Scenario.paid_shop = (σ', inr o')
    ∧ UpdateOrderStatus "0" "CANCELLED" σ' = (σ', inr o').
Proof.
  apply (UpdateOrderStatus_CANCELLED_twice "0" Scenario.paid_shop
           Scenario.paid_order).
  - vm_compute. reflexivity.
  - reflexivity.
  - discriminate.
Defined.

Lemma sample_then_CONFIRMED :
  UpdateOrderStatus "0" "CONFIRMED" Scenario.placed_shop
  = (Order_save "0"
       (Order.set_order_status "CONFIRMED" Scenario.placed_order)
       Scenario.placed_shop,
     inr (Order.set_order_status "CONFIRMED" Scenario.placed_order)).
Proof.
  apply (CreateOrder_then_CONFIRMED _ _ _ _ _ _ _ _ _ _ seclo_placed).
  - reflexivity.
  - intros f public_id folder. unfold Sample.upload. cbn. discriminate.
Defined.


Lemma sample_catalogue_consistent :
  catalogue_consistent Scenario.placed_shop = true.
Proof.
  apply (CreateOrder_keeps_catalogue_consistent _ _ _ _ _ _ _ _ _ _
           seclo_placed).
  vm_compute. reflexivity.
Defined.

Lemma sample_order_scoped :
  ∃ oid o,
    GetMyOrderById "3F2A9C" Sample.alice_token Scenario.placed_shop
    = inr (oid, o).
Proof.
  apply (proj1 (proj2 (GetMyOrderById_scoped "3F2A9C" Sample.alice_token
                         Scenario.placed_shop))).
  exists "0", Scenario.placed_order.
  split; [apply placed_order_stored|]. by split.
Defined.

Lemma sample_order_read_back :
  GetMyOrderById (Order.order_id Scenario.placed_order) Sample.alice_token
    Scenario.placed_shop
  = inr ("0", Scenario.placed_order).
Proof.
  apply (CreateOrder_then_GetMyOrderById _ _ _ _ _ _ _ _ _ _ Sample.alice
           seclo_placed alice_resolves eq_refl).
  intros k old Hold. unfold Sample.shop in Hold. cbn [orders] in Hold.
  rewrite lookup_empty in Hold. discriminate.
Defined.

(** ** Reopening a cancelled order *)

Lemma isInvalidTransition_PLACED (currentStatus : string) :
  isInvalidTransition currentStatus "PLACED" = true
  <-> currentStatus = "SHIPPED" ∨ currentStatus = "DELIVERED".
Proof.
  split; [|by intros [->| ->]].
  unfold isInvalidTransition, invalidTransitions. cbn [property].
  case_status currentStatus; [by left|by right|done].
Qed.

Lemma switchStatus_PLACED (id : string) (o : Order.t) (σ : Store) :
  switchStatus id "PLACED" o σ = mret (σ, o).
Proof. reflexivity. Qed.

(** X24. CANCELLED is not final: a cancelled order can be put back to
    PLACED.  The update succeeds and writes the order status only, so
    the stock that a cancellation gave back is not taken again and the
    payment stays as the cancellation left it. *)
Theorem UpdateOrderStatus_CANCELLED_to_PLACED (id : string) (σ : Store)
    (o : Order.t)
    (Hfind : orders σ !! id = Some o)
    (Hcancelled : Order.order_status o = "CANCELLED") :
  UpdateOrderStatus id "PLACED" σ
  = (Order_save id (Order.set_order_status "PLACED" o) σ,
     inr (Order.set_order_status "PLACED" o))
  ∧ products (UpdateOrderStatus id "PLACED" σ).1 = products σ
  ∧ payments (UpdateOrderStatus id "PLACED" σ).1 = payments σ
  ∧ Order.payment_status (Order.set_order_status "PLACED" o)
    = Order.payment_status o.
Proof.
  assert (Hrun :
    UpdateOrderStatus id "PLACED" σ
    = (Order_save id (Order.set_order_status "PLACED" o) σ,
       inr (Order.set_order_status "PLACED" o))).
  { unfold UpdateOrderStatus, transaction.
    rewrite (UpdateOrderStatus_body_checked id "PLACED" σ o Hfind eq_refl)
      by by rewrite Hcancelled.
    by rewrite switchStatus_PLACED. }
  split; [exact Hrun|]. by rewrite Hrun.
Qed.

Lemma sample_reopen_cancelled :
  UpdateOrderStatus "0" "PLACED"
    (Sample.shop_with (Sample.seclo_order "online" "CANCELLED" "CANCELLED")
                      (Sample.seclo_payment "CANCELLED"))
  = (Order_save "0"
       (Order.set_order_status "PLACED"
          (Sample.seclo_order "online" "CANCELLED" "CANCELLED"))
       (Sample.shop_with (Sample.seclo_order "online" "CANCELLED" "CANCELLED")
                         (Sample.seclo_payment "CANCELLED")),
     inr (Order.set_order_status "PLACED"
            (Sample.seclo_order "online" "CANCELLED" "CANCELLED"))).
Proof.
  apply (UpdateOrderStatus_CANCELLED_to_PLACED "0" _
           (Sample.seclo_order "online" "CANCELLED" "CANCELLED")).
  - vm_compute. reflexivity.
  - reflexivity.
Defined.

(** * Amounts in binary64 *)

Section binary64.
Import PrimFloat FloatOps SpecFloat.
Local Open Scope float_scope.

(** ** What the comparison and the operations do on a zero *)

Lemma b64_clamp_not_negative (x : float) :
  ((if x <? 0 then 0 else x) <? 0) = false.
Proof. destruct (x <? 0) eqn:E; [reflexivity|exact E]. Qed.

Lemma b64_zero_spec (d : float) :
  (d =? 0) = true → ∃ s, Prim2SF d = S754_zero s.
Proof.
  rewrite FloatAxioms.eqb_spec.
  change (Prim2SF 0) with (S754_zero false).
  destruct (Prim2SF d) as [s|s| |s m e]; try destruct s; cbn;
    try discriminate; intros _; by eexists.
Qed.

Lemma b64_finite_spec (x : float) :
  is_finite x = true →
  (∃ s, Prim2SF x = S754_zero s) ∨ (∃ s m e, Prim2SF x = S754_finite s m e).
Proof.
  unfold is_finite, is_nan, is_infinity.
  rewrite !FloatAxioms.eqb_spec, FloatAxioms.abs_spec.
  change (Prim2SF infinity) with (S754_infinity false).
  destruct (Prim2SF x) as [s|s| |s m e]; try destruct s; cbn;
    try discriminate; intros _;
    solve [left; by eexists | right; by eexists _, _, _].
Qed.

Lemma SFeqb_finite_refl s m e :
  SFeqb (S754_finite s m e) (S754_finite s m e) = true.
Proof.
  unfold SFeqb, SFcompare.
  destruct s; rewrite Z.compare_refl, Pos.compare_cont_refl; reflexivity.
Qed.

(** With a zero discount and a finite price, the two formulas give the
    price back, up to the sign of a zero. *)
Lemma b64_percentage_zero (price d : float) :
  is_finite price = true → (d =? 0) = true →
  ((if price <? 0 then 0 else price)
   =? (if price - price * d / 100 <? 0 then 0 else price - price * d / 100))
  = true.
Proof.
  intros Hfin Hz.
  apply b64_zero_spec in Hz as [sd Hd].
  assert (Ht : ∃ st, Prim2SF (price * d / 100) = S754_zero st).
  { rewrite FloatAxioms.div_spec, FloatAxioms.mul_spec, Hd.
    change (Prim2SF 100) with (S754_finite false 7036874417766400 (-46)).
    destruct (b64_finite_spec price Hfin) as [[s ->]|(s & m & e & ->)];
      cbn; by eexists. }
  destruct Ht as [st Ht].
  destruct (b64_finite_spec price Hfin) as [[s Hp]|(s & m & e & Hp)].
  - assert (Hf : ∃ sf, Prim2SF (price - price * d / 100) = S754_zero sf).
    { rewrite FloatAxioms.sub_spec, Ht, Hp. destruct s, st; cbn; by eexists. }
    destruct Hf as [sf Hf].
    rewrite !FloatAxioms.ltb_spec, Hp, Hf.
    change (Prim2SF 0) with (S754_zero false). cbn.
    by rewrite FloatAxioms.eqb_spec, Hp, Hf.
  - assert (Hf : Prim2SF (price - price * d / 100) = S754_finite s m e).
    { rewrite FloatAxioms.sub_spec, Ht, Hp. reflexivity. }
    rewrite !FloatAxioms.ltb_spec, Hp, Hf.
    destruct (SFltb _ _); [reflexivity|].
    by rewrite FloatAxioms.eqb_spec, Hp, Hf, SFeqb_finite_refl.
Qed.

Lemma b64_flat_zero (price d : float) :
  is_finite price = true → (d =? 0) = true →
  ((if price <? 0 then 0 else price)
   =? (if price - d <? 0 then 0 else price - d))
  = true.
Proof.
  intros Hfin Hz.
  apply b64_zero_spec in Hz as [sd Hd].
  destruct (b64_finite_spec price Hfin) as [[s Hp]|(s & m & e & Hp)].
  - assert (Hf : ∃ sf, Prim2SF (price - d) = S754_zero sf).
    { rewrite FloatAxioms.sub_spec, Hd, Hp. destruct s, sd; cbn; by eexists. }
    destruct Hf as [sf Hf].
    rewrite !FloatAxioms.ltb_spec, Hp, Hf.
    change (Prim2SF 0) with (S754_zero false). cbn.
    by rewrite FloatAxioms.eqb_spec, Hp, Hf.
  - assert (Hf : Prim2SF (price - d) = S754_finite s m e).
    { rewrite FloatAxioms.sub_spec, Hd, Hp. reflexivity. }
    rewrite !FloatAxioms.ltb_spec, Hp, Hf.
    destruct (SFltb _ _); [reflexivity|].
    by rewrite FloatAxioms.eqb_spec, Hp, Hf, SFeqb_finite_refl.
Qed.

(** ** The discounted price *)

(** C2. In the arithmetic of the code, for every price and discount,
    [calculateDiscountedPrice] returns [price - price*discount/100]
    under PERCENTAGE and [price - discount] under FLAT, clamped below at
    zero: as the very double when the discount is truthy, and, when
    the discount is zero, where the code skips the formula, as a
    double that compares equal to it for every finite price; whatever
    the discount and its type, the result is never below zero. *)
Theorem b64_calculateDiscountedPrice_spec (price discount : float) :
  (Binary64.num_truthy discount = true →
   Binary64.calculateDiscountedPrice price discount "PERCENTAGE"
   = (if price - price * discount / 100 <? 0 then 0
      else price - price * discount / 100)
   ∧ Binary64.calculateDiscountedPrice price discount "FLAT"
     = (if price - discount <? 0 then 0 else price - discount))
  ∧ ((discount =? 0) = true → is_finite price = true →
     (Binary64.calculateDiscountedPrice price discount "PERCENTAGE"
      =? (if price - price * discount / 100 <? 0 then 0
          else price - price * discount / 100)) = true
     ∧ (Binary64.calculateDiscountedPrice price discount "FLAT"
        =? (if price - discount <? 0 then 0 else price - discount)) = true)
  ∧ (∀ discountType : string,
       (Binary64.calculateDiscountedPrice price discount discountType <? 0)
       = false).
Proof.
  split; [|split].
  - intros Htruthy. unfold Binary64.calculateDiscountedPrice.
    rewrite Htruthy. split; reflexivity.
  - intros Hzero Hfinite.
    assert (Hfalsy : Binary64.num_truthy discount = false)
      by (unfold Binary64.num_truthy; by rewrite Hzero).
    unfold Binary64.calculateDiscountedPrice. rewrite Hfalsy.
    cbn [andb]. unfold Binary64.num_lt. split.
    + by apply b64_percentage_zero.
    + by apply b64_flat_zero.
  - intros discountType. unfold Binary64.calculateDiscountedPrice.
    apply b64_clamp_not_negative.
Qed.

(** The two worked examples of the specification, and two prices on
    which the rounding of the operations shows: 1 less 7 % is
    0.92999999999999994, and ten quadrillion less 1 is ten
    quadrillion. *)
Example b64_discount_percentage :
  Binary64.calculateDiscountedPrice 100 20 "PERCENTAGE" = 80.
Proof. reflexivity. Qed.

Example b64_discount_flat :
  Binary64.calculateDiscountedPrice 100 150 "FLAT" = 0.
Proof. reflexivity. Qed.

Example b64_discount_rounded :
  Binary64.calculateDiscountedPrice 1 7 "PERCENTAGE" = 0x1.dc28f5c28f5c2p-1
  ∧ Binary64.calculateDiscountedPrice 1e16 1 "FLAT" = 1e16.
Proof. split; reflexivity. Qed.

Lemma b64_sample_discount :
  Binary64.calculateDiscountedPrice 100 20 "PERCENTAGE"
  = (if 100 - 100 * 20 / 100 <? 0 then 0 else 100 - 100 * 20 / 100)
  ∧ (Binary64.calculateDiscountedPrice 100 0 "FLAT"
     =? (if 100 - 0 <? 0 then 0 else 100 - 0)) = true.
Proof.
  destruct (b64_calculateDiscountedPrice_spec 100 20) as [Htruthy _].
  destruct (b64_calculateDiscountedPrice_spec 100 0) as (_ & Hzero & _).
  split.
  - apply Htruthy. reflexivity.
  - apply Hzero; reflexivity.
Defined.

(** ** The totals of a created order *)

Lemma b64_transaction_inr {A : Type}
    (body : Binary64.Store → Result (Binary64.Store * A))
    (σ σ' : Binary64.Store) (a : A) :
  Binary64.transaction body σ = (σ', inr a) → body σ = inr (σ', a).
Proof.
  unfold Binary64.transaction.
  destruct (body σ) as [e|[σ1 a1]]; intros H; inversion H; subst; reflexivity.
Qed.

Lemma b64_applyStockUpdates_orders ups σ :
  Binary64.orders (Binary64.applyStockUpdates ups σ) = Binary64.orders σ.
Proof.
  revert σ. induction ups as [|u ups IH]; intros σ; simpl; [done|].
  by rewrite IH.
Qed.

(** The loop adds the total of each line it yields, in order. *)
Lemma b64_mapRequestedProducts_subtotal items req sub ups sub' ups' lines :
  Binary64.mapRequestedProducts items req sub ups = inr (sub', ups', lines) →
  sub' = foldl (λ acc line, acc + Binary64.lineTotal line) sub lines.
Proof.
  revert sub ups sub' ups' lines.
  induction req as [|[pid p] rest IH]; intros sub ups sub' ups' lines H.
  - by inversion H.
  - cbn [Binary64.mapRequestedProducts] in H.
    destruct (List.find _ items) as [item|]; [|discriminate].
    destruct (Binary64.num_lt _ _); [discriminate|].
    destruct (Binary64.mapRequestedProducts items rest _ _)
      as [e'|[[s u] l]] eqn:E; [discriminate|].
    inversion H; subst; clear H.
    apply IH in E. exact E.
Qed.

Lemma b64_CreateOrder_body_inr
    (uploadToCloudinary : FileInterface.t → string → string → string)
    (schema : SchemaDefaults) (uuids : Uuids) (payload : Binary64.Payload.t)
    (file : option FileInterface.t) (user : JwtPayload.t)
    (σ σ' : Binary64.Store) (oid : string) (o : Binary64.Order.t) :
  Binary64.CreateOrder_body uploadToCloudinary schema uuids payload file
    user σ = inr (σ', (oid, o)) →
  ∃ stockUpdates,
    Binary64.mapRequestedProducts (Binary64.Payload.products payload)
      (Binary64.Product_find
         (map Binary64.OrderItem.product_id
              (Binary64.Payload.products payload)) σ) 0 []
    = inr (Binary64.Order.subtotal o, stockUpdates,
           Binary64.Order.products o)
    ∧ Binary64.Order.delivery_charge o
      = (if 1000 <? Binary64.Order.subtotal o then 0 else 50)
    ∧ Binary64.Order.grand_total o
      = Binary64.Order.subtotal o + Binary64.Order.delivery_charge o
    ∧ Binary64.orders σ' !! oid = Some o.
Proof.
  unfold Binary64.CreateOrder_body.
  destruct (Binary64.User_findOne _ σ) as [requestedUser|]; [|discriminate].
  destruct (negb _); [discriminate|].
  intros H.
  destruct (existsb _ _); [destruct file|]; cbn in H; try discriminate;
    destruct (Binary64.mapRequestedProducts _ _ _ _)
      as [e|[[sub ups] lines]];
    try discriminate; cbn in H; inversion H; subst; clear H;
    exists ups; repeat split; try done;
    unfold Binary64.Payment_create, Binary64.with_payments;
    cbn [Binary64.orders];
    rewrite b64_applyStockUpdates_orders;
    apply lookup_insert_eq.
Qed.

(** C1. In the arithmetic of the code, for every order [CreateOrder]
    creates, the stored document has [delivery_charge] 0 when its
    subtotal, as computed, is strictly greater than 1000 and 50
    otherwise, and [grand_total] equal to [subtotal + delivery_charge];
    the subtotal is the sum the code accumulates, line after line, of
    the discounted price times the quantity. *)
Theorem b64_CreateOrder_totals
    (uploadToCloudinary : FileInterface.t → string → string → string)
    (schema : SchemaDefaults) (uuids : Uuids) (payload : Binary64.Payload.t)
    (file : option FileInterface.t) (user : JwtPayload.t)
    (σ σ' : Binary64.Store) (oid : string) (o : Binary64.Order.t)
    (Hcreated :
       Binary64.CreateOrder uploadToCloudinary schema uuids payload file
         user σ = (σ', inr (oid, o))) :
  Binary64.orders σ' !! oid = Some o
  ∧ Binary64.Order.subtotal o
    = Binary64.linesSubtotal (Binary64.Order.products o)
  ∧ ((1000 <? Binary64.Order.subtotal o) = true →
     Binary64.Order.delivery_charge o = 0)
  ∧ ((1000 <? Binary64.Order.subtotal o) = false →
     Binary64.Order.delivery_charge o = 50)
  ∧ Binary64.Order.grand_total o
    = Binary64.Order.subtotal o + Binary64.Order.delivery_charge o.
Proof.
  apply b64_transaction_inr, b64_CreateOrder_body_inr in Hcreated
    as (ups & Hloop & Hdelivery & Htotal & Hstored).
  apply b64_mapRequestedProducts_subtotal in Hloop.
  split; [done|]. split; [done|].
  split; [|split; [|done]]; intros Hcmp; by rewrite Hdelivery, Hcmp.
Qed.

(** The two worked examples of the specification: a subtotal of 1200
    ships free, a subtotal of 500 pays 50. *)
Example b64_subtotal_1200 :
  Binary64.Shop.totals [Binary64.OrderItem.mk "p1" 1]
  = Some (1200, 0, 1200).
Proof. by vm_compute. Qed.

Example b64_subtotal_500 :
  Binary64.Shop.totals [Binary64.OrderItem.mk "p2" 1] = Some (500, 50, 550).
Proof. by vm_compute. Qed.

(** Rounding at work.  One Tonic at 2 less 20 % and three Syrups at
    416 less 20 % come to 1000.0000000000001, which is above the
    threshold and ships free; one Drops at 99.99 pays 50 and the sum
    is rounded to the double next to 149.99. *)
Example b64_subtotal_above_1000 :
  Binary64.Shop.totals
    [Binary64.OrderItem.mk "pa" 1; Binary64.OrderItem.mk "pb" 3]
  = Some (0x1.f400000000001p+9, 0, 0x1.f400000000001p+9).
Proof. by vm_compute. Qed.

Example b64_subtotal_rounded_sum :
  Binary64.Shop.totals [Binary64.OrderItem.mk "p5" 1]
  = Some (0x1.8ff5c28f5c28fp+6, 50, 0x1.2bfae147ae148p+7).
Proof. by vm_compute. Qed.

Lemma b64_sample_order_totals :
  ∃ σ' oid o,
    Binary64.CreateOrder Sample.upload Sample.schema Sample.uuids
      (Binary64.Shop.request
         [Binary64.OrderItem.mk "pa" 1; Binary64.OrderItem.mk "pb" 3])
      None Sample.alice_token Binary64.Shop.shop
    = (σ', inr (oid, o))
    ∧ (1000 <? Binary64.Order.subtotal o) = true
    ∧ Binary64.Order.delivery_charge o = 0
    ∧ Binary64.Order.grand_total o
      = Binary64.Order.subtotal o + Binary64.Order.delivery_charge o.
Proof.
  destruct (Binary64.CreateOrder Sample.upload Sample.schema Sample.uuids
              (Binary64.Shop.request
                 [Binary64.OrderItem.mk "pa" 1; Binary64.OrderItem.mk "pb" 3])
              None Sample.alice_token Binary64.Shop.shop)
    as [σ' [e|[oid o]]] eqn:Hrun.
  { exfalso. vm_compute in Hrun. discriminate. }
  assert (Habove : (1000 <? Binary64.Order.subtotal o) = true).
  { vm_compute in Hrun. inversion Hrun. reflexivity. }
  destruct (b64_CreateOrder_totals _ _ _ _ _ _ _ _ _ _ Hrun)
    as (_ & _ & Hfree & _ & Htotal).
  exists σ', oid, o. split; [reflexivity|]. split; [exact Habove|].
  split; [exact (Hfree Habove)|exact Htotal].
Defined.

End binary64.
